(** * Soroban Registry: the front-end API client  (frontend/lib/api.ts)

    The client is a table of seven asynchronous operations.  Each one builds
    a URL from the module-level constant [API_URL], calls the platform's
    [fetch], throws a fixed [Error] when the response is not [ok], and
    otherwise hands back [response.json()].

    The embedding follows the file top to bottom:
    - JavaScript data the client touches (strings, numbers as binary64
      floats, JSON values, truthiness, [String(...)], [JSON.stringify],
      [URLSearchParams]);
    - the interfaces of the file as records;
    - the platform boundary ([fetch], [Response.ok], [Response.json]) as the
      effects of a small free monad [Async], run against a [World]; the
      engine's [String(n)] as the one member of the class [Engine];
    - the module constant and the seven operations;
    - the properties.

    Strings are [string]s of bytes: the UTF-8 encoding of the JavaScript
    string (the encoding [URLSearchParams] serialises). *)

From Stdlib Require Import ZArith String Ascii List Bool Lia DecimalString.
From Stdlib Require Import Floats Permutation.
Import ListNotations.
Open Scope list_scope.
Open Scope string_scope.

Set Warnings "-register-all".

(* ------------------------------------------------------------------ *)
(** * Numbers as text *)

(** [Number::toString] in radix 10, as ECMAScript defines it: the fewest
    decimal digits [s] (there are [k] of them) and the exponent [n] such
    that [s * 10^(n-k)] rounds to the number, the closest such [s] when
    there are several; written plainly for [n] up to 21 and down to -5, and
    with an exponent otherwise. *)
Module Number.

(** The decimal digits of a natural number. *)
Definition digits (z : Z) : string := NilZero.string_of_int (Z.to_int z).

(** [s * 10^p] against [c * 2^q]. *)
Definition compare_scaled (s p c q : Z) : comparison :=
  (s * 10 ^ Z.max p 0 * 2 ^ Z.max (- q) 0
   ?= c * 2 ^ Z.max q 0 * 10 ^ Z.max (- p) 0)%Z.

Section Finite.

(** A positive finite double [m * 2^e], [m] being its 53-bit significand
    (less for a subnormal) and [e] at least -1074. *)
Variables m e : Z.

(** The interval of the reals that round to the value, in units of
    [2^(e-2)]: half-way to the double below (which is twice as near when
    the value is a power of two) and half-way to the double above. *)
Definition lower : Z :=
  if (m =? 2 ^ 52)%Z && (-1074 <? e)%Z then (4 * m - 1)%Z else (4 * m - 2)%Z.

Definition upper : Z := (4 * m + 2)%Z.

(** Whether [s * 10^p] rounds to the value (ties go to the even
    significand). *)
Definition rounds_here (s p : Z) : bool :=
  match compare_scaled s p lower (e - 2), compare_scaled s p upper (e - 2) with
  | Gt, Lt => true
  | Eq, Lt | Gt, Eq => Z.even m
  | _, _ => false
  end.

(** The [n] with [10^(n-1) <= value < 10^n], from above. *)
Fixpoint magnitude (fuel : nat) (n : Z) : Z :=
  match fuel with
  | O => n
  | S fuel' =>
      match compare_scaled 1 (n - 1) m e with
      | Gt => magnitude fuel' (n - 1)
      | _ => n
      end
  end.

(** The largest [s] with [s * 10^p] at most the value. *)
Definition below (p : Z) : Z :=
  ((m * 2 ^ Z.max e 0 * 10 ^ Z.max (- p) 0)
   / (2 ^ Z.max (- e) 0 * 10 ^ Z.max p 0))%Z.

(** Of two neighbours that both round to the value, the closer one; the
    even one when they are as close. *)
Definition closer (lo hi p : Z) : Z :=
  match compare_scaled (lo + hi) p (2 * m) e with
  | Gt => lo
  | Lt => hi
  | Eq => if Z.even lo then lo else hi
  end.

(** The smallest number [k] of digits for which some [s * 10^(n-k)] rounds
    to the value, and that [s]. *)
Fixpoint shortest (fuel : nat) (n k : Z) : Z * Z :=
  let p := (n - k)%Z in
  let lo := below p in
  let hi := (lo + 1)%Z in
  let found :=
    match rounds_here lo p, rounds_here hi p with
    | true, true => Some (closer lo hi p)
    | true, false => Some lo
    | false, true => Some hi
    | false, false => None
    end in
  match found, fuel with
  | Some s, _ => (s, k)
  | None, O => (lo, k)
  | None, S fuel' => shortest fuel' n (k + 1)
  end.

End Finite.

Fixpoint zeros (n : nat) : string :=
  match n with
  | O => ""
  | S n' => String "0" (zeros n')
  end.

(** [e+21], [e-7]. *)
Definition exponent (n : Z) : string :=
  (if (n - 1 <? 0)%Z then "e-" else "e+") ++ digits (Z.abs (n - 1)).

(** The text for digits [ds] ([k] of them) and decimal exponent [n]. *)
Definition layout (ds : string) (k n : Z) : string :=
  if (k <=? n)%Z && (n <=? 21)%Z then ds ++ zeros (Z.to_nat (n - k))
  else if (0 <? n)%Z && (n <=? 21)%Z then
    substring 0 (Z.to_nat n) ds ++ "."
    ++ substring (Z.to_nat n) (Z.to_nat (k - n)) ds
  else if (-6 <? n)%Z && (n <=? 0)%Z then
    "0." ++ zeros (Z.to_nat (- n)) ++ ds
  else if (k =? 1)%Z then ds ++ exponent n
  else substring 0 1 ds ++ "." ++ substring 1 (Z.to_nat (k - 1)) ds
       ++ exponent n.

(** A positive finite double, [m * 2^e]. *)
Definition finite (m e : Z) : string :=
  let n := magnitude m e 640 309 in
  let (s, k) := shortest m e 16 n 1 in
  if (s =? 10 ^ k)%Z then layout (digits (s / 10)) k (n + 1)
  else layout (digits s) k n.

(** [Number::toString(x)], radix 10. *)
Definition toString (x : float) : string :=
  match Prim2SF x with
  | S754_nan => "NaN"
  | S754_zero _ => "0"
  | S754_infinity false => "Infinity"
  | S754_infinity true => "-Infinity"
  | S754_finite false m e => finite (Zpos m) e
  | S754_finite true m e => "-" ++ finite (Zpos m) e
  end.

End Number.

(** What the client asks of the JavaScript engine besides its syntax:
    [String(n)] for a number.  The definitions and the properties below
    are stated for whatever text an engine gives. *)
Class Engine : Type := {
  Number_toString : float -> string
}.

(* ------------------------------------------------------------------ *)
(** * JavaScript values *)

Module Js.

(** A number is a binary64 float. *)
Definition number : Type := float.

(** [ToBoolean] on a number: [+0], [-0] and [NaN] are falsy. *)
Definition number_truthy (n : number) : bool :=
  negb (PrimFloat.is_zero n || PrimFloat.is_nan n).

(** [String(n)]. *)
Definition String_number {E : Engine} (n : number) : string :=
  Number_toString n.

(** [String(b)]. *)
Definition String_boolean (b : bool) : string :=
  if b then "true" else "false".

(** [ToBoolean] on a string: only the empty string is falsy. *)
Definition string_truthy (s : string) : bool :=
  match s with
  | EmptyString => false
  | String _ _ => true
  end.

(** A value of type [T | undefined] is [option T]; [undefined] is falsy. *)
Definition truthy {T} (t : T -> bool) (v : option T) : bool :=
  match v with
  | Some x => t x
  | None => false
  end.

(** [v !== undefined]. *)
Definition defined {T} (v : option T) : bool :=
  match v with
  | Some _ => true
  | None => false
  end.

(** [a || b] on [string | undefined] with a string default. *)
Definition or_else (a : option string) (b : string) : string :=
  match a with
  | Some s => if string_truthy s then s else b
  | None => b
  end.

(** [o?.f]: [undefined] when [o] is. *)
Definition opt_chain {A B} (o : option A) (f : A -> option B) : option B :=
  match o with
  | Some a => f a
  | None => None
  end.

(** Runtime values: what [JSON.parse] can produce, plus [undefined].  An
    object is its own properties in insertion order. *)
Inductive value : Type :=
| Undefined
| Null
| Bool (b : bool)
| Num (n : number)
| Str (s : string)
| Arr (items : list value)
| Obj (props : list (string * value)).

(** Own enumerable property names, in order. *)
Definition keys (v : value) : list string :=
  match v with
  | Obj props => map fst props
  | _ => []
  end.

(** [v !== undefined], for a runtime value. *)
Definition is_defined (v : value) : bool :=
  match v with
  | Undefined => false
  | _ => true
  end.

(** [typeof v === 'number']. *)
Definition is_number (v : value) : bool :=
  match v with
  | Num _ => true
  | _ => false
  end.

End Js.

(* ------------------------------------------------------------------ *)
(** * Characters and hexadecimal digits *)

Definition ascii_in (lo hi : nat) (c : ascii) : bool :=
  (lo <=? nat_of_ascii c)%nat && (nat_of_ascii c <=? hi)%nat.

Definition is_alnum (c : ascii) : bool :=
  ascii_in 48 57 c || ascii_in 65 90 c || ascii_in 97 122 c.

Definition hex_upper (n : nat) : ascii :=
  if (n <? 10)%nat then ascii_of_nat (48 + n) else ascii_of_nat (55 + n).

Definition hex_lower (n : nat) : ascii :=
  if (n <? 10)%nat then ascii_of_nat (48 + n) else ascii_of_nat (87 + n).

Definition str1 (c : ascii) : string := String c EmptyString.

(** The double quote character, U+0022. *)
Definition dquote : ascii := ascii_of_nat 34.

Fixpoint flat_map_string (f : ascii -> string) (s : string) : string :=
  match s with
  | EmptyString => EmptyString
  | String c rest => f c ++ flat_map_string f rest
  end.

(* ------------------------------------------------------------------ *)
(** * URLSearchParams *)

Module URLSearchParams.

(** The list of name-value tuples of the object. *)
Definition t : Type := list (string * string).

(** [new URLSearchParams()]. *)
Definition new : t := [].

(** [queryParams.append(name, value)]. *)
Definition append (name value : string) (qp : t) : t :=
  (qp ++ [(name, value)])%list.

(** Bytes the application/x-www-form-urlencoded serialiser leaves alone:
    ASCII alphanumerics and [* - . _]. *)
Definition unescaped (c : ascii) : bool :=
  is_alnum c
  || Ascii.eqb c "*" || Ascii.eqb c "-" || Ascii.eqb c "." || Ascii.eqb c "_".

Definition percent_encode (c : ascii) : string :=
  String "%" (String (hex_upper (nat_of_ascii c / 16))
             (String (hex_upper (nat_of_ascii c mod 16)) EmptyString)).

(** One byte: kept, turned into [+] (space), or percent-encoded. *)
Definition encode_byte (c : ascii) : string :=
  if unescaped c then str1 c
  else if Ascii.eqb c " " then "+"
  else percent_encode c.

Definition encode (s : string) : string := flat_map_string encode_byte s.

Definition encode_tuple (nv : string * string) : string :=
  encode (fst nv) ++ "=" ++ encode (snd nv).

(** [queryParams.toString()], which a template literal calls. *)
Definition toString (qp : t) : string :=
  String.concat "&" (map encode_tuple qp).

End URLSearchParams.

(* ------------------------------------------------------------------ *)
(** * JSON.stringify *)

Module JSON.

(** [QuoteJSONString], one byte at a time. *)
Definition escape_byte (c : ascii) : string :=
  let n := nat_of_ascii c in
  if (n =? 34)%nat then "\" ++ str1 c
  else if (n =? 92)%nat then "\\"
  else if (n =? 8)%nat then "\b"
  else if (n =? 9)%nat then "\t"
  else if (n =? 10)%nat then "\n"
  else if (n =? 12)%nat then "\f"
  else if (n =? 13)%nat then "\r"
  else if (n <? 32)%nat
       then "\u00" ++ str1 (hex_lower (n / 16)) ++ str1 (hex_lower (n mod 16))
  else str1 c.

Definition quote (s : string) : string :=
  str1 dquote ++ flat_map_string escape_byte s ++ str1 dquote.

(** Numbers: finite ones as [String] prints them, the others as [null]. *)
Definition number {E : Engine} (n : Js.number) : string :=
  if PrimFloat.is_finite n then Js.String_number n else "null".

(** [SerializeJSONProperty]: [None] is the [undefined] result, which drops
    a property from an object and prints as [null] inside an array. *)
Fixpoint serialize {E : Engine} (v : Js.value) : option string :=
  match v with
  | Js.Undefined => None
  | Js.Null => Some "null"
  | Js.Bool b => Some (Js.String_boolean b)
  | Js.Num n => Some (number n)
  | Js.Str s => Some (quote s)
  | Js.Arr items =>
      let fix elements (l : list Js.value) : list string :=
        match l with
        | [] => []
        | x :: rest =>
            match serialize x with
            | Some s => s
            | None => "null"
            end :: elements rest
        end in
      Some ("[" ++ String.concat "," (elements items) ++ "]")
  | Js.Obj props =>
      let fix members (l : list (string * Js.value)) : list string :=
        match l with
        | [] => []
        | (k, x) :: rest =>
            match serialize x with
            | Some s => (quote k ++ ":" ++ s) :: members rest
            | None => members rest
            end
        end in
      Some ("{" ++ String.concat "," (members props) ++ "}")
  end.

(** [JSON.stringify(v)]: a string, or [undefined]. *)
Definition stringify {E : Engine} (v : Js.value) : option string :=
  serialize v.

End JSON.


(* ------------------------------------------------------------------ *)
(** * The interfaces of the file *)

(** ['mainnet' | 'testnet' | 'futurenet']: three non-empty strings. *)
Inductive Network : Type := mainnet | testnet | futurenet.

Definition Network_string (n : Network) : string :=
  match n with
  | mainnet => "mainnet"
  | testnet => "testnet"
  | futurenet => "futurenet"
  end.

(** [interface ContractSearchParams]: every field is optional. *)
Module ContractSearchParams.

Record t : Type := mk {
  query : option string;
  network : option Network;
  verified_only : option bool;
  category : option string;
  tags : option (list string);
  page : option Js.number;
  page_size : option Js.number
}.

(** The object literal [{}]. *)
Definition empty : t := mk None None None None None None None.

(** Whether the named field is present and not [undefined]. *)
Definition has (p : t) (field : string) : bool :=
  if field =? "query" then Js.defined (query p)
  else if field =? "network" then Js.defined (network p)
  else if field =? "verified_only" then Js.defined (verified_only p)
  else if field =? "category" then Js.defined (category p)
  else if field =? "tags" then Js.defined (tags p)
  else if field =? "page" then Js.defined (page p)
  else if field =? "page_size" then Js.defined (page_size p)
  else false.

End ContractSearchParams.

(** [interface PublishRequest]. *)
Module PublishRequest.

Record t : Type := mk {
  contract_id : string;
  name : string;
  description : option string;
  network : Network;
  category : option string;
  tags : list string;
  source_url : option string;
  publisher_address : string
}.

(** An optional property: left out of the object when it has no value. *)
Definition optional (key : string) (v : option string)
  : list (string * Js.value) :=
  match v with
  | Some s => [(key, Js.Str s)]
  | None => []
  end.

(** The properties of a [PublishRequest] that have a value, in the order
    the interface declares them. *)
Definition properties (d : t) : list (string * Js.value) :=
  ([("contract_id", Js.Str (contract_id d));
    ("name", Js.Str (name d))]
   ++ optional "description" (description d)
   ++ [("network", Js.Str (Network_string (network d)))]
   ++ optional "category" (category d)
   ++ [("tags", Js.Arr (map Js.Str (tags d)))]
   ++ optional "source_url" (source_url d)
   ++ [("publisher_address", Js.Str (publisher_address d))])%list.

(** The object literal that lists them in that order. *)
Definition to_value (d : t) : Js.value := Js.Obj (properties d).

(** An object with own properties [props] is the request [d]: its
    properties, in whatever order the caller wrote them, are the fields of
    [d]; an optional field without a value may be left out or be spelled
    [undefined]. *)
Definition written_as (d : t) (props : list (string * Js.value)) : Prop :=
  NoDup (map fst props)
  /\ Permutation (filter (fun kv => Js.is_defined (snd kv)) props)
                 (properties d).

End PublishRequest.

(* ------------------------------------------------------------------ *)
(** * The platform: fetch and Response *)

(** The second argument of [fetch]. *)
Record RequestInit : Type := {
  method : option string;
  headers : list (string * string);
  body : option string
}.

(** One call [fetch(url)] or [fetch(url, init)]. *)
Record Request : Type := {
  url : string;
  init : option RequestInit
}.

(** The HTTP method of a request: [GET] unless [init] names one. *)
Definition request_method (r : Request) : string :=
  match init r with
  | Some i =>
      match method i with
      | Some m => m
      | None => "GET"
      end
  | None => "GET"
  end.

Definition request_headers (r : Request) : list (string * string) :=
  match init r with
  | Some i => headers i
  | None => []
  end.

Definition request_body (r : Request) : option string :=
  match init r with
  | Some i => body i
  | None => None
  end.

(** How a platform promise settles: with a value, or rejected with whatever
    the platform raised (a [TypeError] for a network failure, a
    [SyntaxError] for a body that is not JSON, ...). *)
Inductive Promise (A : Type) : Type :=
| Resolves (a : A)
| Rejects (reason : Js.value).
Arguments Resolves {A} a.
Arguments Rejects {A} reason.

(** A [Response]: its status, and how the promise returned by
    [response.json()] settles. *)
Record Response : Type := {
  status : Z;
  json : Promise Js.value
}.

(** [response.ok]: the status is in the range 200-299. *)
Definition ok (r : Response) : bool :=
  (200 <=? status r)%Z && (status r <=? 299)%Z.

(** The outside world: the server and the network, as seen through
    [fetch]. *)
Record World : Type := {
  fetch : Request -> Promise Response
}.

(* ------------------------------------------------------------------ *)
(** * Asynchronous functions *)

(** What an [async] function can throw: an [Error] it built itself with
    [new Error(message)], or a value that a platform promise was rejected
    with and that [await] rethrows. *)
Inductive exn : Type :=
| Error (message : string)
| Raised (reason : Js.value).

(** How the promise of an [async] function settles. *)
Inductive Settled (A : Type) : Type :=
| Fulfilled (a : A)
| Rejected (e : exn).
Arguments Fulfilled {A} a.
Arguments Rejected {A} e.

(** The body of an [async] function, up to its next [await]. *)
Inductive Async (A : Type) : Type :=
| Return (a : A)
| Throw (e : exn)
| AwaitFetch (req : Request) (k : Response -> Async A)
| AwaitJson (r : Response) (k : Js.value -> Async A).
Arguments Return {A} a.
Arguments Throw {A} e.
Arguments AwaitFetch {A} req k.
Arguments AwaitJson {A} r k.

Fixpoint bind {A B} (m : Async A) (f : A -> Async B) : Async B :=
  match m with
  | Return a => f a
  | Throw e => Throw e
  | AwaitFetch req k => AwaitFetch req (fun r => bind (k r) f)
  | AwaitJson r k => AwaitJson r (fun v => bind (k v) f)
  end.

Notation "'const' x <- m ;; k" := (bind m (fun x => k))
  (at level 61, x name, m at next level, right associativity).

(** [await fetch(url, init)]. *)
Definition await_fetch (u : string) (i : option RequestInit) : Async Response :=
  AwaitFetch {| url := u; init := i |} Return.

(** [return response.json()]: the function's promise follows that one. *)
Definition return_json (r : Response) : Async Js.value :=
  AwaitJson r Return.

(** What a run did to the outside world. *)
Inductive event : Type :=
| Fetched (req : Request)
| ReadBody (r : Response).

(** Running a body against the world: the events, and the settlement.  A
    rejected platform promise is rethrown by [await]; nothing in the file
    catches it. *)
Fixpoint run {A} (w : World) (m : Async A) : list event * Settled A :=
  match m with
  | Return a => ([], Fulfilled a)
  | Throw e => ([], Rejected e)
  | AwaitFetch req k =>
      match fetch w req with
      | Resolves r =>
          let (evs, s) := run w (k r) in (Fetched req :: evs, s)
      | Rejects reason => ([Fetched req], Rejected (Raised reason))
      end
  | AwaitJson r k =>
      match json r with
      | Resolves v =>
          let (evs, s) := run w (k v) in (ReadBody r :: evs, s)
      | Rejects reason => ([ReadBody r], Rejected (Raised reason))
      end
  end.

Definition settle {A} (w : World) (m : Async A) : Settled A := snd (run w m).
Definition trace {A} (w : World) (m : Async A) : list event := fst (run w m).

(** The requests a run sent. *)
Fixpoint requests (evs : list event) : list Request :=
  match evs with
  | [] => []
  | Fetched req :: rest => req :: requests rest
  | ReadBody _ :: rest => requests rest
  end.

(** Whether a run read a response body. *)
Fixpoint reads_body (evs : list event) : bool :=
  match evs with
  | [] => false
  | Fetched _ :: rest => reads_body rest
  | ReadBody _ :: _ => true
  end.

(** The request a body sends first, if it starts by awaiting [fetch]. *)
Definition first_request {A} (m : Async A) : option Request :=
  match m with
  | AwaitFetch req _ => Some req
  | _ => None
  end.

(* ------------------------------------------------------------------ *)
(** * The module constant *)

(** [process.env]: an object from variable names to strings; a variable
    that is not set reads as [undefined]. *)
Module process.

Definition env : Type := list (string * string).

Fixpoint get (e : env) (name : string) : option string :=
  match e with
  | [] => None
  | (k, v) :: rest => if k =? name then Some v else get rest name
  end.

(** [process.env[name] = v]. *)
Definition set (name v : string) (e : env) : env := (name, v) :: e.

(** [delete process.env[name]]. *)
Fixpoint unset (name : string) (e : env) : env :=
  match e with
  | [] => []
  | (k, v) :: rest =>
      if k =? name then unset name rest else (k, v) :: unset name rest
  end.

End process.

(** The module instance: its top-level constants, once evaluated. *)
Record ApiModule : Type := {
  API_URL : string
}.

(** Evaluating the module's top level:
    [const API_URL = process.env.NEXT_PUBLIC_API_URL || 'http://localhost:3001']. *)
Definition load (e : process.env) : ApiModule :=
  {| API_URL :=
       Js.or_else (process.get e "NEXT_PUBLIC_API_URL") "http://localhost:3001" |}.

(* ------------------------------------------------------------------ *)
(** * The operations:  [export const api = { ... }] *)

Module api.
Section operations.

(** The engine that runs the module, and the loaded module the methods
    close over. *)
Context {E : Engine}.
Variable M : ApiModule.

(** [if (v is truthy / defined) queryParams.append(name, text)]. *)
Definition append_when {T} (v : option T) (test : T -> bool)
    (name : string) (text : T -> string) (qp : URLSearchParams.t)
  : URLSearchParams.t :=
  match v with
  | Some x => if test x then URLSearchParams.append name (text x) qp else qp
  | None => qp
  end.

(** The six [if] statements of [getContracts], in order. *)
Definition queryParams (params : option ContractSearchParams.t)
  : URLSearchParams.t :=
  let qp := URLSearchParams.new in
  let qp := append_when (Js.opt_chain params ContractSearchParams.query)
              Js.string_truthy "query" (fun s => s) qp in
  let qp := append_when (Js.opt_chain params ContractSearchParams.network)
              (fun n => Js.string_truthy (Network_string n))
              "network" Network_string qp in
  let qp := append_when (Js.opt_chain params ContractSearchParams.verified_only)
              (fun _ => true) "verified_only" Js.String_boolean qp in
  let qp := append_when (Js.opt_chain params ContractSearchParams.category)
              Js.string_truthy "category" (fun s => s) qp in
  let qp := append_when (Js.opt_chain params ContractSearchParams.page)
              Js.number_truthy "page" Js.String_number qp in
  let qp := append_when (Js.opt_chain params ContractSearchParams.page_size)
              Js.number_truthy "page_size" Js.String_number qp in
  qp.

Definition getContracts (params : option ContractSearchParams.t)
  : Async Js.value :=
  let qp := queryParams params in
  const response <-
    await_fetch (API_URL M ++ "/api/contracts?" ++ URLSearchParams.toString qp)
                None ;;
  if negb (ok response) then Throw (Error "Failed to fetch contracts")
  else return_json response.

Definition getContract (id : string) : Async Js.value :=
  const response <-
    await_fetch (API_URL M ++ "/api/contracts/" ++ id) None ;;
  if negb (ok response) then Throw (Error "Failed to fetch contract")
  else return_json response.

Definition getContractVersions (id : string) : Async Js.value :=
  const response <-
    await_fetch (API_URL M ++ "/api/contracts/" ++ id ++ "/versions") None ;;
  if negb (ok response) then Throw (Error "Failed to fetch contract versions")
  else return_json response.

Definition publishContract (data : Js.value) : Async Js.value :=
  const response <-
    await_fetch (API_URL M ++ "/api/contracts")
      (Some {| method := Some "POST";
               headers := [("Content-Type", "application/json")];
               body := JSON.stringify data |}) ;;
  if negb (ok response) then Throw (Error "Failed to publish contract")
  else return_json response.

Definition getPublisher (id : string) : Async Js.value :=
  const response <-
    await_fetch (API_URL M ++ "/api/publishers/" ++ id) None ;;
  if negb (ok response) then Throw (Error "Failed to fetch publisher")
  else return_json response.

Definition getPublisherContracts (id : string) : Async Js.value :=
  const response <-
    await_fetch (API_URL M ++ "/api/publishers/" ++ id ++ "/contracts") None ;;
  if negb (ok response) then Throw (Error "Failed to fetch publisher contracts")
  else return_json response.

Definition getStats : Async Js.value :=
  const response <-
    await_fetch (API_URL M ++ "/api/stats") None ;;
  if negb (ok response) then Throw (Error "Failed to fetch stats")
  else return_json response.

(** A call of one method of [api], with its argument. *)
Inductive call : Type :=
| GetContracts (params : option ContractSearchParams.t)
| GetContract (id : string)
| GetContractVersions (id : string)
| PublishContract (data : Js.value)
| GetPublisher (id : string)
| GetPublisherContracts (id : string)
| GetStats.

Definition invoke (c : call) : Async Js.value :=
  match c with
  | GetContracts params => getContracts params
  | GetContract id => getContract id
  | GetContractVersions id => getContractVersions id
  | PublishContract data => publishContract data
  | GetPublisher id => getPublisher id
  | GetPublisherContracts id => getPublisherContracts id
  | GetStats => getStats
  end.

End operations.
End api.

(* ------------------------------------------------------------------ *)
(** * Reading requests back: query strings and URLs *)

(** Splitting at every occurrence of a separator byte. *)
Fixpoint split_on (sep : ascii) (s : string) : list string :=
  match s with
  | EmptyString => [EmptyString]
  | String c rest =>
      if Ascii.eqb c sep then EmptyString :: split_on sep rest
      else match split_on sep rest with
           | [] => [str1 c]
           | h :: t => String c h :: t
           end
  end.

(** The part before the first byte that satisfies [stop]. *)
Fixpoint take_until (stop : ascii -> bool) (s : string) : string :=
  match s with
  | EmptyString => EmptyString
  | String c rest => if stop c then EmptyString else String c (take_until stop rest)
  end.

(** The part from the first byte that satisfies [stop] on. *)
Fixpoint drop_until (stop : ascii -> bool) (s : string) : string :=
  match s with
  | EmptyString => EmptyString
  | String c rest => if stop c then s else drop_until stop rest
  end.

Definition is_char (x : ascii) (c : ascii) : bool := Ascii.eqb c x.

Fixpoint occurs (x : ascii) (s : string) : bool :=
  match s with
  | EmptyString => false
  | String c rest => Ascii.eqb c x || occurs x rest
  end.

(** The server's side of a query string: the
    application/x-www-form-urlencoded parser. *)
Module QueryString.

Definition hex_value (c : ascii) : option nat :=
  let n := nat_of_ascii c in
  if ascii_in 48 57 c then Some (n - 48)
  else if ascii_in 65 70 c then Some (n - 55)
  else if ascii_in 97 102 c then Some (n - 87)
  else None.

Fixpoint percent_decode (s : string) : string :=
  match s with
  | EmptyString => EmptyString
  | String c rest =>
      if Ascii.eqb c "%" then
        match rest with
        | String h (String l rest') =>
            match hex_value h, hex_value l with
            | Some a, Some b =>
                String (ascii_of_nat (16 * a + b)) (percent_decode rest')
            | _, _ => String c (percent_decode rest)
            end
        | _ => String c (percent_decode rest)
        end
      else String c (percent_decode rest)
  end.

Fixpoint plus_to_space (s : string) : string :=
  match s with
  | EmptyString => EmptyString
  | String c rest =>
      String (if Ascii.eqb c "+" then " "%char else c) (plus_to_space rest)
  end.

Definition decode (s : string) : string := percent_decode (plus_to_space s).

(** One sequence between ampersands: name, and value after the first [=]. *)
Definition parse_tuple (seq : string) : string * string :=
  let name := take_until (is_char "=") seq in
  let value :=
    match drop_until (is_char "=") seq with
    | String _ v => v
    | EmptyString => EmptyString
    end in
  (decode name, decode value).

Definition nonempty (s : string) : bool :=
  match s with
  | EmptyString => false
  | String _ _ => true
  end.

Definition parse (s : string) : list (string * string) :=
  map parse_tuple (filter nonempty (split_on "&" s)).

(** The keys a query string carries, in order. *)
Definition keys (s : string) : list string := map fst (parse s).

End QueryString.

(** The parts of an absolute URL [scheme://authority/path?query#fragment],
    split at its delimiters.  This is what the URL parser of [fetch] yields
    for a URL it has nothing to normalise in (no dot segment, backslash,
    white space or byte to escape); the properties that speak of the parts
    of a request keep to such URLs. *)
Module Url.

Fixpoint after_scheme (s : string) : string :=
  match s with
  | String ":" (String "/" (String "/" rest)) => rest
  | String _ rest => after_scheme rest
  | EmptyString => EmptyString
  end.

Definition ends_authority (c : ascii) : bool :=
  is_char "/" c || is_char "?" c || is_char "#" c.

Definition ends_path (c : ascii) : bool := is_char "?" c || is_char "#" c.

Definition path (u : string) : string :=
  take_until ends_path (drop_until ends_authority (after_scheme u)).

Definition segments (u : string) : list string :=
  List.tl (split_on "/" (path u)).

Definition query (u : string) : option string :=
  match drop_until ends_path (drop_until ends_authority (after_scheme u)) with
  | String "?" q => Some (take_until (is_char "#") q)
  | _ => None
  end.

Definition fragment (u : string) : option string :=
  match drop_until (is_char "#") (after_scheme u) with
  | String _ f => Some f
  | EmptyString => None
  end.

End Url.

(* ------------------------------------------------------------------ *)
(** * Tables over the operations *)

Module Table.

(** The message of the [Error] each operation throws. *)
Definition failure_message (c : api.call) : string :=
  match c with
  | api.GetContracts _ => "Failed to fetch contracts"
  | api.GetContract _ => "Failed to fetch contract"
  | api.GetContractVersions _ => "Failed to fetch contract versions"
  | api.PublishContract _ => "Failed to publish contract"
  | api.GetPublisher _ => "Failed to fetch publisher"
  | api.GetPublisherContracts _ => "Failed to fetch publisher contracts"
  | api.GetStats => "Failed to fetch stats"
  end.

(** The path (and query) each operation asks for, below the base URL. *)
Definition path {E : Engine} (c : api.call) : string :=
  match c with
  | api.GetContracts params =>
      "/api/contracts?" ++ URLSearchParams.toString (api.queryParams params)
  | api.GetContract id => "/api/contracts/" ++ id
  | api.GetContractVersions id => "/api/contracts/" ++ id ++ "/versions"
  | api.PublishContract _ => "/api/contracts"
  | api.GetPublisher id => "/api/publishers/" ++ id
  | api.GetPublisherContracts id => "/api/publishers/" ++ id ++ "/contracts"
  | api.GetStats => "/api/stats"
  end.

(** The keys [getContracts] can put in a query string. *)
Definition query_fields : list string :=
  ["query"; "network"; "verified_only"; "category"; "page"; "page_size"].

(** The guard of each of the six [if] statements of [getContracts]: a
    truthiness test, except for [verified_only], which is compared with
    [undefined]. *)
Definition sent (params : option ContractSearchParams.t) (field : string)
  : bool :=
  if field =? "query"
  then Js.truthy Js.string_truthy
         (Js.opt_chain params ContractSearchParams.query)
  else if field =? "network"
  then Js.defined (Js.opt_chain params ContractSearchParams.network)
  else if field =? "verified_only"
  then Js.defined (Js.opt_chain params ContractSearchParams.verified_only)
  else if field =? "category"
  then Js.truthy Js.string_truthy
         (Js.opt_chain params ContractSearchParams.category)
  else if field =? "page"
  then Js.truthy Js.number_truthy
         (Js.opt_chain params ContractSearchParams.page)
  else if field =? "page_size"
  then Js.truthy Js.number_truthy
         (Js.opt_chain params ContractSearchParams.page_size)
  else false.

Definition text_of {T} (text : T -> string) (v : option T) : string :=
  match v with
  | Some x => text x
  | None => ""
  end.

(** The text sent for a field. *)
Definition sent_text {E : Engine} (params : option ContractSearchParams.t)
    (field : string) : string :=
  if field =? "query"
  then text_of (fun s => s) (Js.opt_chain params ContractSearchParams.query)
  else if field =? "network"
  then text_of Network_string
         (Js.opt_chain params ContractSearchParams.network)
  else if field =? "verified_only"
  then text_of Js.String_boolean
         (Js.opt_chain params ContractSearchParams.verified_only)
  else if field =? "category"
  then text_of (fun s => s)
         (Js.opt_chain params ContractSearchParams.category)
  else if field =? "page"
  then text_of Js.String_number
         (Js.opt_chain params ContractSearchParams.page)
  else if field =? "page_size"
  then text_of Js.String_number
         (Js.opt_chain params ContractSearchParams.page_size)
  else "".

(** The tuples the guards let through, for a list of fields. *)
Definition sent_tuples {E : Engine} (params : option ContractSearchParams.t)
    (fields : list string) : list (string * string) :=
  flat_map (fun k => if sent params k then [(k, sent_text params k)] else [])
           fields.

(** The fields that are present and not [undefined]. *)
Definition defined_fields (params : option ContractSearchParams.t)
    (fields : list string) : list string :=
  match params with
  | Some p => filter (ContractSearchParams.has p) fields
  | None => []
  end.

(** Member by member, the JSON text of an object whose values are strings
    and arrays of strings, as the fields of a [PublishRequest] are. *)
Definition item_json (v : Js.value) : string :=
  match v with
  | Js.Str s => JSON.quote s
  | _ => "null"
  end.

Definition field_json (v : Js.value) : string :=
  match v with
  | Js.Str s => JSON.quote s
  | Js.Arr items => "[" ++ String.concat "," (map item_json items) ++ "]"
  | _ => "null"
  end.

Definition member_json (kv : string * Js.value) : string :=
  JSON.quote (fst kv) ++ ":" ++ field_json (snd kv).

Definition object_json (props : list (string * Js.value)) : string :=
  "{" ++ String.concat "," (map member_json props) ++ "}".

(** The return type of [getStats]:
    [{ total_contracts: number; verified_contracts: number;
       total_publishers: number }], and nothing else. *)
Definition stats_fields : list string :=
  ["total_contracts"; "verified_contracts"; "total_publishers"].

Definition is_stats_record (v : Js.value) : bool :=
  match v with
  | Js.Obj props =>
      forallb (fun kv => existsb (String.eqb (fst kv)) stats_fields
                         && Js.is_number (snd kv)) props
      && forallb (fun k => existsb (String.eqb k) (map fst props)) stats_fields
      && (length props =? 3)%nat
  | _ => false
  end.

End Table.

(* ------------------------------------------------------------------ *)
(** * The process around the module *)

Module Process.

(** The environment now, and the module instance once it was evaluated
    (a module is evaluated at its first import and cached). *)
Record t : Type := {
  env : process.env;
  loaded : option ApiModule
}.

Inductive action : Type :=
| SetEnv (name value : string)
| UnsetEnv (name : string)
| Import
| Call (c : api.call).

Definition start (e : process.env) : t := {| env := e; loaded := None |}.

Definition import (p : t) : t * ApiModule :=
  match loaded p with
  | Some m => (p, m)
  | None =>
      let m := load (env p) in
      ({| env := env p; loaded := Some m |}, m)
  end.

(** One action: the next state, and the request it sends, if any. *)
Definition step {E : Engine} (p : t) (a : action) : t * option Request :=
  match a with
  | SetEnv name v =>
      ({| env := process.set name v (env p); loaded := loaded p |}, None)
  | UnsetEnv name =>
      ({| env := process.unset name (env p); loaded := loaded p |}, None)
  | Import => (fst (import p), None)
  | Call c =>
      let (p', m) := import p in
      (p', first_request (api.invoke m c))
  end.

Fixpoint steps {E : Engine} (p : t) (acts : list action) : t :=
  match acts with
  | [] => p
  | a :: rest => steps (fst (step p a)) rest
  end.

(** A process that started with environment [e] and imported the module. *)
Definition booted {E : Engine} (e : process.env) : t :=
  fst (step (start e) Import).

End Process.

(* ------------------------------------------------------------------ *)
(** * The common shape of the seven bodies *)

(** [const response = await fetch(...); if (!response.ok) throw new
    Error(msg); return response.json();] *)
Definition guarded (req : Request) (msg : string) : Async Js.value :=
  AwaitFetch req (fun response =>
    if negb (ok response) then Throw (Error msg)
    else AwaitJson response Return).

Module Requests.

(** The second argument each operation gives to [fetch], if any. *)
Definition init_of {E : Engine} (c : api.call) : option RequestInit :=
  match c with
  | api.PublishContract data =>
      Some {| method := Some "POST";
              headers := [("Content-Type", "application/json")];
              body := JSON.stringify data |}
  | _ => None
  end.

(** The request of an operation: base URL, then the operation's path. *)
Definition request {E : Engine} (M : ApiModule) (c : api.call) : Request :=
  {| url := API_URL M ++ Table.path c; init := init_of c |}.

(** The URL an operation asks for. *)
Definition url_of (m : Async Js.value) : string :=
  match first_request m with
  | Some req => url req
  | None => ""
  end.

End Requests.

(* ------------------------------------------------------------------ *)
(** * Sample worlds and inputs *)

Module Sample.

(** A server that answers every request with the same response. *)
Definition answering (r : Response) : World :=
  {| fetch := fun _ => Resolves r |}.

(** No network: every [fetch] is rejected. *)
Definition offline (reason : Js.value) : World :=
  {| fetch := fun _ => Rejects reason |}.

Definition type_error : Js.value :=
  Js.Obj [("name", Js.Str "TypeError"); ("message", Js.Str "Failed to fetch")].

Definition syntax_error : Js.value :=
  Js.Obj [("name", Js.Str "SyntaxError");
          ("message", Js.Str "Unexpected token < in JSON at position 0")].

Definition not_found : Response :=
  {| status := 404;
     json := Resolves (Js.Obj [("error", Js.Str "not found")]) |}.

Definition html_page : Response :=
  {| status := 200; json := Rejects syntax_error |}.

Definition stats : Js.value :=
  Js.Obj [("total_contracts", Js.Num 12%float);
          ("verified_contracts", Js.Num 5%float);
          ("total_publishers", Js.Num 3%float)].

Definition stats_and_more : Js.value :=
  Js.Obj [("total_contracts", Js.Num 12%float);
          ("verified_contracts", Js.Num 5%float);
          ("total_publishers", Js.Num 3%float);
          ("uptime", Js.Str "3 days")].

Definition success (v : Js.value) : Response :=
  {| status := 200; json := Resolves v |}.

(** A request, and an object literal for it that starts with the
    publisher, swaps the first two fields and spells out the missing
    description. *)
Definition request : PublishRequest.t :=
  PublishRequest.mk "CDLZFC3S" "token" None testnet (Some "defi")
    ["dex"; "amm"] None "GABC".

Definition request_object : list (string * Js.value) :=
  [("publisher_address", Js.Str "GABC");
   ("name", Js.Str "token");
   ("contract_id", Js.Str "CDLZFC3S");
   ("description", Js.Undefined);
   ("network", Js.Str "testnet");
   ("category", Js.Str "defi");
   ("tags", Js.Arr [Js.Str "dex"; Js.Str "amm"])].

(** [{ query: '', verified_only: false, page: 0 }]. *)
Definition falsy_params : ContractSearchParams.t :=
  ContractSearchParams.mk (Some "") None (Some false) None None
    (Some 0%float) None.

End Sample.

(* ------------------------------------------------------------------ *)
(** * Further vocabulary for the properties *)

(** No byte of the string satisfies [stop]. *)
Fixpoint free_of (stop : ascii -> bool) (s : string) : bool :=
  match s with
  | EmptyString => true
  | String c rest => negb (stop c) && free_of stop rest
  end.

(** Every byte of the string satisfies [good]. *)
Definition made_of (good : ascii -> bool) (s : string) : bool :=
  free_of (fun c => negb (good c)) s.

(** The bytes of a plain identifier: ASCII letters, digits, [-] and [_].
    A URL parser leaves such a path segment as it is. *)
Definition token_byte (c : ascii) : bool :=
  is_alnum c || Ascii.eqb c "-" || Ascii.eqb c "_".

(** The bytes [URLSearchParams] writes: the ones it leaves alone, its
    escapes [%] and [+], and its separators [&] and [=].  A URL parser
    leaves them as they are in a query. *)
Definition query_byte (c : ascii) : bool :=
  URLSearchParams.unescaped c
  || Ascii.eqb c "%" || Ascii.eqb c "+" || Ascii.eqb c "&" || Ascii.eqb c "=".

Module Method.

(** The name of the method of [api] that a call uses. *)
Definition name (c : api.call) : string :=
  match c with
  | api.GetContracts _ => "getContracts"
  | api.GetContract _ => "getContract"
  | api.GetContractVersions _ => "getContractVersions"
  | api.PublishContract _ => "publishContract"
  | api.GetPublisher _ => "getPublisher"
  | api.GetPublisherContracts _ => "getPublisherContracts"
  | api.GetStats => "getStats"
  end.

(** The six methods that only read. *)
Definition reads (c : api.call) : bool :=
  match c with
  | api.PublishContract _ => false
  | _ => true
  end.

(** [{ ...p, tags }]. *)
Definition with_tags (p : ContractSearchParams.t) (tags : option (list string))
  : ContractSearchParams.t :=
  ContractSearchParams.mk
    (ContractSearchParams.query p) (ContractSearchParams.network p)
    (ContractSearchParams.verified_only p) (ContractSearchParams.category p)
    tags
    (ContractSearchParams.page p) (ContractSearchParams.page_size p).

End Method.

(** The engine of the standard, which the closed examples run on. *)
#[export] Instance ECMAScript : Engine := {|
  Number_toString := Number.toString
|}.

(** Case analysis over the 256 bytes. *)
Ltac each_byte c := destruct c as [[] [] [] [] [] [] [] []].

(* ================================================================== *)
(** * Properties *)

(** ** Strings *)

Lemma occurs_app (x : ascii) (a b : string) :
  occurs x (a ++ b) = occurs x a || occurs x b.
Proof.
  induction a as [|c a IH]; simpl; [reflexivity|].
  rewrite IH. now rewrite orb_assoc.
Qed.

Lemma occurs_flat_map (x : ascii) (f : ascii -> string) (s : string) :
  (forall c, occurs x (f c) = false) -> occurs x (flat_map_string f s) = false.
Proof.
  intros Hf. induction s as [|c s IH]; simpl; [reflexivity|].
  now rewrite occurs_app, Hf, IH.
Qed.

Lemma split_on_absent (sep : ascii) (a : string) :
  occurs sep a = false -> split_on sep a = [a].
Proof.
  induction a as [|c a IH]; simpl; [reflexivity|].
  intros H. apply orb_false_elim in H as [Hc Ha].
  rewrite Hc, (IH Ha). reflexivity.
Qed.

Lemma split_on_first (sep : ascii) (a b : string) :
  occurs sep a = false ->
  split_on sep (a ++ String sep b) = a :: split_on sep b.
Proof.
  induction a as [|c a IH]; simpl.
  - intros _. now rewrite Ascii.eqb_refl.
  - intros H. apply orb_false_elim in H as [Hc Ha].
    rewrite Hc, (IH Ha). reflexivity.
Qed.

Lemma take_until_first (x : ascii) (a b : string) :
  occurs x a = false -> take_until (is_char x) (a ++ String x b) = a.
Proof.
  unfold is_char. induction a as [|c a IH]; simpl.
  - intros _. now rewrite Ascii.eqb_refl.
  - intros H. apply orb_false_elim in H as [Hc Ha].
    rewrite Hc, (IH Ha). reflexivity.
Qed.

Lemma drop_until_first (x : ascii) (a b : string) :
  occurs x a = false ->
  drop_until (is_char x) (a ++ String x b) = String x b.
Proof.
  unfold is_char. induction a as [|c a IH]; simpl.
  - intros _. now rewrite Ascii.eqb_refl.
  - intros H. apply orb_false_elim in H as [Hc Ha].
    rewrite Hc. exact (IH Ha).
Qed.

(** ** The query string, written and read back *)

Lemma encode_byte_no_amp (c : ascii) :
  occurs "&" (URLSearchParams.encode_byte c) = false.
Proof. each_byte c; reflexivity. Qed.

Lemma encode_byte_no_eq (c : ascii) :
  occurs "=" (URLSearchParams.encode_byte c) = false.
Proof. each_byte c; reflexivity. Qed.

Lemma encode_no_amp (s : string) : occurs "&" (URLSearchParams.encode s) = false.
Proof. apply occurs_flat_map, encode_byte_no_amp. Qed.

Lemma encode_no_eq (s : string) : occurs "=" (URLSearchParams.encode s) = false.
Proof. apply occurs_flat_map, encode_byte_no_eq. Qed.

Lemma decode_encode_byte (c : ascii) (rest : string) :
  QueryString.decode (URLSearchParams.encode_byte c ++ rest)
  = String c (QueryString.decode rest).
Proof. each_byte c; reflexivity. Qed.

Lemma decode_encode (s : string) :
  QueryString.decode (URLSearchParams.encode s) = s.
Proof.
  induction s as [|c s IH]; [reflexivity|].
  unfold URLSearchParams.encode in *. simpl.
  now rewrite decode_encode_byte, IH.
Qed.

Lemma encode_tuple_no_amp (nv : string * string) :
  occurs "&" (URLSearchParams.encode_tuple nv) = false.
Proof.
  unfold URLSearchParams.encode_tuple.
  now rewrite !occurs_app, !encode_no_amp.
Qed.

Lemma encode_tuple_nonempty (nv : string * string) :
  QueryString.nonempty (URLSearchParams.encode_tuple nv) = true.
Proof.
  unfold URLSearchParams.encode_tuple.
  destruct (URLSearchParams.encode (fst nv)); reflexivity.
Qed.

Lemma parse_encode_tuple (nv : string * string) :
  QueryString.parse_tuple (URLSearchParams.encode_tuple nv) = nv.
Proof.
  destruct nv as [n v]. unfold QueryString.parse_tuple, URLSearchParams.encode_tuple.
  simpl fst; simpl snd. simpl ("=" ++ _).
  rewrite take_until_first, drop_until_first by apply encode_no_eq.
  now rewrite !decode_encode.
Qed.

(** Whatever tuples a [URLSearchParams] holds, the server reads the same
    tuples back from its string. *)
Lemma parse_toString (qp : URLSearchParams.t) :
  QueryString.parse (URLSearchParams.toString qp) = qp.
Proof.
  unfold QueryString.parse, URLSearchParams.toString.
  induction qp as [|x qp IH]; [reflexivity|].
  destruct qp as [|y qp].
  - change (String.concat "&" (map URLSearchParams.encode_tuple [x]))
      with (URLSearchParams.encode_tuple x).
    rewrite split_on_absent by apply encode_tuple_no_amp.
    simpl filter. rewrite encode_tuple_nonempty.
    simpl map. now rewrite parse_encode_tuple.
  - change (String.concat "&" (map URLSearchParams.encode_tuple (x :: y :: qp)))
      with (URLSearchParams.encode_tuple x
            ++ String "&" (String.concat "&"
                 (map URLSearchParams.encode_tuple (y :: qp)))).
    rewrite split_on_first by apply encode_tuple_no_amp.
    simpl filter. rewrite encode_tuple_nonempty.
    simpl map at 1. rewrite parse_encode_tuple. f_equal. exact IH.
Qed.

(** ** Running a guarded body *)

Lemma invoke_guarded {engine : Engine} (M : ApiModule) (c : api.call) :
  api.invoke M c = guarded (Requests.request M c) (Table.failure_message c).
Proof. destruct c; reflexivity. Qed.

Lemma first_request_invoke {engine : Engine} (M : ApiModule) (c : api.call) :
  first_request (api.invoke M c) = Some (Requests.request M c).
Proof. now rewrite invoke_guarded. Qed.

Lemma ok_range (r : Response) :
  ok r = true <-> (200 <= status r <= 299)%Z.
Proof. unfold ok. rewrite andb_true_iff, !Z.leb_le. tauto. Qed.

Lemma not_ok_range (r : Response) :
  ~ (200 <= status r <= 299)%Z -> ok r = false.
Proof.
  intros H. destruct (ok r) eqn:E; [|reflexivity].
  apply ok_range in E. contradiction.
Qed.

Section Runs.

Variables (w : World) (req : Request) (msg : string).

Lemma run_fetch_rejected (reason : Js.value) :
  fetch w req = Rejects reason ->
  run w (guarded req msg) = ([Fetched req], Rejected (Raised reason)).
Proof. intros H. simpl. now rewrite H. Qed.

Lemma run_not_ok (r : Response) :
  fetch w req = Resolves r -> ok r = false ->
  run w (guarded req msg) = ([Fetched req], Rejected (Error msg)).
Proof. intros H Hok. simpl. rewrite H, Hok. reflexivity. Qed.

Lemma run_ok_json (r : Response) (v : Js.value) :
  fetch w req = Resolves r -> ok r = true -> json r = Resolves v ->
  run w (guarded req msg) = ([Fetched req; ReadBody r], Fulfilled v).
Proof. intros H Hok Hj. simpl. rewrite H, Hok. simpl. now rewrite Hj. Qed.

Lemma run_ok_json_rejected (r : Response) (reason : Js.value) :
  fetch w req = Resolves r -> ok r = true -> json r = Rejects reason ->
  run w (guarded req msg)
  = ([Fetched req; ReadBody r], Rejected (Raised reason)).
Proof. intros H Hok Hj. simpl. rewrite H, Hok. simpl. now rewrite Hj. Qed.

(** Every run sends exactly one request. *)
Lemma requests_guarded : requests (fst (run w (guarded req msg))) = [req].
Proof.
  simpl. destruct (fetch w req) as [r|reason]; [|reflexivity].
  destruct (ok r); simpl; [|reflexivity].
  destruct (json r); reflexivity.
Qed.

End Runs.

(** ** The query string of [getContracts] *)

Lemma append_when_eq {T} (v : option T) (test : T -> bool) (name : string)
    (text : T -> string) (qp : URLSearchParams.t) :
  api.append_when v test name text qp
  = (qp ++ if Js.truthy test v then [(name, Table.text_of text v)] else [])%list.
Proof.
  unfold api.append_when, URLSearchParams.append.
  destruct v as [x|]; simpl; [|now rewrite app_nil_r].
  destruct (test x); [reflexivity | now rewrite app_nil_r].
Qed.

Lemma network_truthy (v : option Network) :
  Js.truthy (fun n => Js.string_truthy (Network_string n)) v = Js.defined v.
Proof. destruct v as [[]|]; reflexivity. Qed.

Lemma always_truthy {T} (v : option T) :
  Js.truthy (fun _ => true) v = Js.defined v.
Proof. destruct v; reflexivity. Qed.

(** The tuples [getContracts] appends are the ones its guards let through,
    in the order of the six statements. *)
Lemma queryParams_sent {engine : Engine} (params : option ContractSearchParams.t) :
  api.queryParams params = Table.sent_tuples params Table.query_fields.
Proof.
  unfold api.queryParams. rewrite !append_when_eq.
  rewrite network_truthy, always_truthy.
  unfold URLSearchParams.new, Table.sent_tuples, Table.query_fields.
  cbn [flat_map]. rewrite app_nil_r, <- !app_assoc.
  reflexivity.
Qed.

Lemma keys_sent_tuples {engine : Engine} (params : option ContractSearchParams.t)
    (fields : list string) :
  map fst (Table.sent_tuples params fields) = filter (Table.sent params) fields.
Proof.
  unfold Table.sent_tuples.
  induction fields as [|k fields IH]; [reflexivity|].
  simpl. rewrite map_app, IH.
  destruct (Table.sent params k); reflexivity.
Qed.

Lemma sent_tags {engine : Engine} (params : option ContractSearchParams.t) :
  Table.sent params "tags" = false.
Proof. reflexivity. Qed.

(** C1, as the code has it.  The query string of [getContracts] carries
    exactly the keys whose guard holds: [query] and [category] when they are
    non-empty strings, [page] and [page_size] when they are numbers other
    than 0, -0 and NaN, [network] and [verified_only] whenever they are not
    [undefined] (so [verified_only: false] is sent); each with the text of
    its field; and never a [tags] key. *)
Theorem getContracts_query_keys {engine : Engine} (M : ApiModule)
    (params : option ContractSearchParams.t) :
  first_request (api.getContracts M params)
  = Some {| url := API_URL M ++ "/api/contracts?"
                   ++ URLSearchParams.toString (api.queryParams params);
            init := None |}
  /\ QueryString.parse (URLSearchParams.toString (api.queryParams params))
     = Table.sent_tuples params Table.query_fields
  /\ QueryString.keys (URLSearchParams.toString (api.queryParams params))
     = filter (Table.sent params) Table.query_fields
  /\ ~ In "tags"
       (QueryString.keys (URLSearchParams.toString (api.queryParams params))).
Proof.
  assert (K : QueryString.keys (URLSearchParams.toString (api.queryParams params))
              = filter (Table.sent params) Table.query_fields).
  { unfold QueryString.keys.
    now rewrite parse_toString, queryParams_sent, keys_sent_tuples. }
  repeat split.
  - now rewrite parse_toString, queryParams_sent.
  - exact K.
  - rewrite K. intros H. apply filter_In in H as [_ H].
    rewrite sent_tags in H. discriminate.
Qed.

(** C1, as stated, fails: with [{ query: '', verified_only: false, page: 0 }]
    the fields [query] and [page] are defined, yet the query string is
    [verified_only=false]. *)
Lemma getContracts_query_keys_counterexample :
  ContractSearchParams.has Sample.falsy_params "query" = true
  /\ ContractSearchParams.has Sample.falsy_params "page" = true
  /\ Requests.url_of (api.getContracts (load []) (Some Sample.falsy_params))
     = "http://localhost:3001/api/contracts?verified_only=false"
  /\ QueryString.keys
       (URLSearchParams.toString (api.queryParams (Some Sample.falsy_params)))
     <> Table.defined_fields (Some Sample.falsy_params) Table.query_fields.
Proof.
  repeat split. vm_compute. discriminate.
Qed.

(** ** Failures *)

(** C2.  Whatever the operation, a response whose status is outside
    200-299 makes the call fail with [new Error(msg)], [msg] being the
    fixed message of that operation; the status plays no other part, and
    the body of the response is never read. *)
Theorem non_success_fails {engine : Engine} (M : ApiModule) (c : api.call) (w : World)
    (req : Request) (r : Response) :
  first_request (api.invoke M c) = Some req ->
  fetch w req = Resolves r ->
  ~ (200 <= status r <= 299)%Z ->
  settle w (api.invoke M c) = Rejected (Error (Table.failure_message c))
  /\ trace w (api.invoke M c) = [Fetched req]
  /\ reads_body (trace w (api.invoke M c)) = false.
Proof.
  intros Hreq Hfetch Hstatus.
  rewrite first_request_invoke in Hreq. injection Hreq as <-.
  unfold settle, trace. rewrite invoke_guarded.
  rewrite (run_not_ok _ _ _ r Hfetch (not_ok_range r Hstatus)).
  repeat split.
Qed.

Lemma non_success_fails_witness :
  (fetch (Sample.answering Sample.not_found)
         (Requests.request (load []) (api.GetPublisher "GABC"))
   = Resolves Sample.not_found
   /\ ~ (200 <= status Sample.not_found <= 299)%Z)
  /\ settle (Sample.answering Sample.not_found)
            (api.invoke (load []) (api.GetPublisher "GABC"))
     = Rejected (Error "Failed to fetch publisher").
Proof.
  split.
  - split; [reflexivity | simpl; lia].
  - apply (non_success_fails (load []) (api.GetPublisher "GABC")
             (Sample.answering Sample.not_found)
             (Requests.request (load []) (api.GetPublisher "GABC"))
             Sample.not_found);
      [reflexivity | reflexivity | simpl; lia].
Defined.

(** C7.  When [fetch] is rejected, or the response is a success whose body
    does not parse, the call is rejected with the very value the platform
    raised; it is not the operation's own [Error]. *)
Theorem transport_failure_propagates {engine : Engine} (M : ApiModule) (c : api.call)
    (w : World) (req : Request) (reason : Js.value) :
  first_request (api.invoke M c) = Some req ->
  (fetch w req = Rejects reason
   \/ exists r, fetch w req = Resolves r
                /\ (200 <= status r <= 299)%Z
                /\ json r = Rejects reason) ->
  settle w (api.invoke M c) = Rejected (Raised reason)
  /\ settle w (api.invoke M c)
     <> Rejected (Error (Table.failure_message c)).
Proof.
  intros Hreq Hfail.
  rewrite first_request_invoke in Hreq. injection Hreq as <-.
  assert (E : settle w (api.invoke M c) = Rejected (Raised reason)).
  { unfold settle. rewrite invoke_guarded.
    destruct Hfail as [Hfetch | (r & Hfetch & Hstatus & Hjson)].
    - now rewrite (run_fetch_rejected _ _ _ reason Hfetch).
    - apply ok_range in Hstatus.
      now rewrite (run_ok_json_rejected _ _ _ r reason Hfetch Hstatus Hjson). }
  split; [exact E | rewrite E; discriminate].
Qed.

Lemma transport_failure_propagates_witness :
  (exists r, fetch (Sample.answering Sample.html_page)
                   (Requests.request (load []) api.GetStats) = Resolves r
             /\ (200 <= status r <= 299)%Z
             /\ json r = Rejects Sample.syntax_error)
  /\ settle (Sample.answering Sample.html_page)
            (api.invoke (load []) api.GetStats)
     = Rejected (Raised Sample.syntax_error).
Proof.
  assert (H : exists r, fetch (Sample.answering Sample.html_page)
                   (Requests.request (load []) api.GetStats) = Resolves r
             /\ (200 <= status r <= 299)%Z
             /\ json r = Rejects Sample.syntax_error).
  { exists Sample.html_page. repeat split; simpl; lia. }
  split; [exact H|].
  apply (transport_failure_propagates (load []) api.GetStats
           (Sample.answering Sample.html_page)
           (Requests.request (load []) api.GetStats) Sample.syntax_error);
    [reflexivity | right; exact H].
Defined.

(** With no network at all, [getContracts] is rejected with the
    [TypeError] of [fetch]. *)
Example getContracts_offline :
  run (Sample.offline Sample.type_error) (api.getContracts (load []) None)
  = ([Fetched {| url := "http://localhost:3001/api/contracts?";
                 init := None |}],
     Rejected (Raised Sample.type_error)).
Proof. reflexivity. Qed.

(** ** Successes *)

(** C3.  On a success whose body parses to [payload], [getContract]
    resolves to [payload] itself. *)
Theorem getContract_round_trip (M : ApiModule) (id : string) (w : World)
    (req : Request) (r : Response) (payload : Js.value) :
  first_request (api.getContract M id) = Some req ->
  fetch w req = Resolves r ->
  (200 <= status r <= 299)%Z ->
  json r = Resolves payload ->
  settle w (api.getContract M id) = Fulfilled payload.
Proof.
  intros Hreq Hfetch Hstatus Hjson.
  injection Hreq as <-. apply ok_range in Hstatus.
  unfold settle.
  change (api.getContract M id)
    with (guarded (Requests.request M (api.GetContract id))
                  "Failed to fetch contract").
  now rewrite (run_ok_json _ _ _ r payload Hfetch Hstatus Hjson).
Qed.

Lemma getContract_round_trip_witness :
  settle (Sample.answering (Sample.success Sample.stats))
         (api.getContract (load []) "x")
  = Fulfilled Sample.stats.
Proof.
  apply (getContract_round_trip (load []) "x"
           (Sample.answering (Sample.success Sample.stats))
           (Requests.request (load []) (api.GetContract "x"))
           (Sample.success Sample.stats) Sample.stats);
    [reflexivity | reflexivity | simpl; lia | reflexivity].
Defined.

(** C5, as the code has it.  On a success whose body parses to [payload],
    [getStats] resolves to [payload] itself, unchecked: the result is a
    record of exactly the three numeric fields when, and only when, the
    payload is one. *)
Theorem getStats_returns_payload (M : ApiModule) (w : World) (req : Request)
    (r : Response) (payload : Js.value) :
  first_request (api.getStats M) = Some req ->
  fetch w req = Resolves r ->
  (200 <= status r <= 299)%Z ->
  json r = Resolves payload ->
  settle w (api.getStats M) = Fulfilled payload
  /\ forall result, settle w (api.getStats M) = Fulfilled result ->
       Table.is_stats_record result = Table.is_stats_record payload.
Proof.
  intros Hreq Hfetch Hstatus Hjson.
  injection Hreq as <-. apply ok_range in Hstatus.
  assert (E : settle w (api.getStats M) = Fulfilled payload).
  { unfold settle.
    change (api.getStats M)
      with (guarded (Requests.request M api.GetStats) "Failed to fetch stats").
    now rewrite (run_ok_json _ _ _ r payload Hfetch Hstatus Hjson). }
  split; [exact E|].
  intros result H. rewrite E in H. now injection H as <-.
Qed.

Lemma getStats_returns_payload_witness :
  settle (Sample.answering (Sample.success Sample.stats))
         (api.getStats (load []))
  = Fulfilled Sample.stats
  /\ Table.is_stats_record Sample.stats = true.
Proof.
  split; [|reflexivity].
  apply (getStats_returns_payload (load [])
           (Sample.answering (Sample.success Sample.stats))
           (Requests.request (load []) api.GetStats)
           (Sample.success Sample.stats) Sample.stats);
    [reflexivity | reflexivity | simpl; lia | reflexivity].
Defined.

(** C5, as stated, fails: a 200 response whose payload has a fourth field
    comes back with its four fields. *)
Lemma getStats_shape_counterexample :
  ok (Sample.success Sample.stats_and_more) = true
  /\ settle (Sample.answering (Sample.success Sample.stats_and_more))
            (api.getStats (load []))
     = Fulfilled Sample.stats_and_more
  /\ Js.keys Sample.stats_and_more
     = ["total_contracts"; "verified_contracts"; "total_publishers"; "uptime"]
  /\ Table.is_stats_record Sample.stats_and_more = false.
Proof. repeat split. Qed.

(** ** Requests *)

Lemma serialize_strings {engine : Engine} (l : list string) :
  JSON.serialize (Js.Arr (map Js.Str l))
  = Some ("[" ++ String.concat "," (map JSON.quote l) ++ "]").
Proof.
  simpl. do 4 f_equal.
  induction l as [|s l IH]; simpl; [reflexivity | now rewrite IH].
Qed.

Lemma field_json_strings (l : list string) :
  Table.field_json (Js.Arr (map Js.Str l))
  = "[" ++ String.concat "," (map JSON.quote l) ++ "]".
Proof. simpl. now rewrite map_map. Qed.

(** The fields of a request are strings, but for the tags, which are an
    array of strings. *)
Lemma property_shape (d : PublishRequest.t) (kv : string * Js.value) :
  In kv (PublishRequest.properties d) ->
  (exists s, snd kv = Js.Str s)
  \/ snd kv = Js.Arr (map Js.Str (PublishRequest.tags d)).
Proof.
  unfold PublishRequest.properties, PublishRequest.optional.
  destruct (PublishRequest.description d), (PublishRequest.category d),
           (PublishRequest.source_url d);
    simpl; intros H;
    repeat (destruct H as [<- | H]; [simpl; eauto|]);
    contradiction.
Qed.

Lemma serialize_property {engine : Engine} (d : PublishRequest.t)
    (kv : string * Js.value) :
  In kv (PublishRequest.properties d) ->
  JSON.serialize (snd kv) = Some (Table.field_json (snd kv)).
Proof.
  intros H. destruct (property_shape d kv H) as [[s ->] | ->];
    [reflexivity|].
  now rewrite serialize_strings, field_json_strings.
Qed.

(** [JSON.stringify] of an object writes its defined properties, in the
    object's order, each under its own name. *)
Lemma serialize_object {engine : Engine} (props : list (string * Js.value)) :
  Forall (fun kv => Js.is_defined (snd kv) = true ->
                    JSON.serialize (snd kv) = Some (Table.field_json (snd kv)))
         props ->
  JSON.serialize (Js.Obj props)
  = Some (Table.object_json
            (filter (fun kv => Js.is_defined (snd kv)) props)).
Proof.
  intros H.
  pose (members :=
          fix members (l : list (string * Js.value)) : list string :=
            match l with
            | [] => []
            | (k, x) :: rest =>
                match JSON.serialize x with
                | Some s => (JSON.quote k ++ ":" ++ s) :: members rest
                | None => members rest
                end
            end).
  change (JSON.serialize (Js.Obj props))
    with (Some ("{" ++ String.concat "," (members props) ++ "}")).
  unfold Table.object_json. do 4 f_equal.
  induction H as [|[k v] props Hv _ IH]; [reflexivity|].
  simpl in Hv. simpl filter. simpl members. destruct (Js.is_defined v) eqn:D.
  - rewrite (Hv eq_refl). simpl map. now rewrite <- IH.
  - destruct v; try discriminate D. exact IH.
Qed.

(** C4.  [publishContract] sends one request: a POST to the base URL
    followed by [/api/contracts], with the header
    [Content-Type: application/json], whose body is [JSON.stringify] of
    the object it was given.  When that object is a [PublishRequest]
    (its fields written in any order), the body is the JSON object whose
    members are the fields that have a value, in the caller's order and
    under their own names, with their JSON text: none added, dropped or
    renamed. *)
Theorem publishContract_request {engine : Engine} (M : ApiModule)
    (data : Js.value) :
  exists req,
    first_request (api.publishContract M data) = Some req
    /\ (forall w, requests (trace w (api.publishContract M data)) = [req])
    /\ request_method req = "POST"
    /\ url req = API_URL M ++ "/api/contracts"
    /\ In ("Content-Type", "application/json") (request_headers req)
    /\ request_body req = JSON.stringify data
    /\ forall (d : PublishRequest.t) (props : list (string * Js.value)),
         data = Js.Obj props ->
         PublishRequest.written_as d props ->
         request_body req
         = Some (Table.object_json
                   (filter (fun kv => Js.is_defined (snd kv)) props))
         /\ Permutation
              (map fst (filter (fun kv => Js.is_defined (snd kv)) props))
              (map fst (PublishRequest.properties d)).
Proof.
  exists (Requests.request M (api.PublishContract data)).
  split; [reflexivity|]. split.
  { intros w. unfold trace.
    change (api.publishContract M data)
      with (guarded (Requests.request M (api.PublishContract data))
                    "Failed to publish contract").
    apply requests_guarded. }
  do 3 (split; [first [reflexivity | now left]|]).
  split; [reflexivity|].
  intros d props -> [_ Hperm]. split.
  - change (request_body (Requests.request M (api.PublishContract (Js.Obj props))))
      with (JSON.serialize (Js.Obj props)).
    apply serialize_object, Forall_forall. intros kv Hin Hdef.
    apply (serialize_property d).
    apply (Permutation_in _ Hperm), filter_In. now split.
  - now apply Permutation_map.
Qed.

Lemma publishContract_request_witness :
  PublishRequest.written_as Sample.request Sample.request_object
  /\ exists req,
       first_request
         (api.publishContract (load []) (Js.Obj Sample.request_object))
       = Some req
       /\ request_body req
          = Some (Table.object_json
                    [("publisher_address", Js.Str "GABC");
                     ("name", Js.Str "token");
                     ("contract_id", Js.Str "CDLZFC3S");
                     ("network", Js.Str "testnet");
                     ("category", Js.Str "defi");
                     ("tags", Js.Arr [Js.Str "dex"; Js.Str "amm"])]).
Proof.
  assert (W : PublishRequest.written_as Sample.request Sample.request_object).
  { split.
    - repeat constructor; simpl; intuition discriminate.
    - simpl.
      apply (Permutation_cons_app
               [("contract_id", Js.Str "CDLZFC3S"); ("name", Js.Str "token");
                ("network", Js.Str "testnet"); ("category", Js.Str "defi");
                ("tags", Js.Arr [Js.Str "dex"; Js.Str "amm"])] []).
      apply perm_swap. }
  split; [exact W|].
  destruct (publishContract_request (load []) (Js.Obj Sample.request_object))
    as (req & Hreq & _ & _ & _ & _ & _ & Hbody).
  exists req. split; [exact Hreq|].
  exact (proj1 (Hbody Sample.request Sample.request_object eq_refl W)).
Defined.

(** In the order of the interface, with two optional fields. *)
Example publishContract_in_declaration_order :
  request_body
    (Requests.request (load [])
       (api.PublishContract
          (PublishRequest.to_value
             (PublishRequest.mk "C1" "n" None mainnet (Some "defi") ["a"]
                (Some "https://x") "G"))))
  = Some (Table.object_json
            [("contract_id", Js.Str "C1"); ("name", Js.Str "n");
             ("network", Js.Str "mainnet"); ("category", Js.Str "defi");
             ("tags", Js.Arr [Js.Str "a"]); ("source_url", Js.Str "https://x");
             ("publisher_address", Js.Str "G")]).
Proof. reflexivity. Qed.

(** C8.  [getContracts({})] sends one request, a GET to the base URL
    followed by [/api/contracts?], the query string being empty. *)
Theorem getContracts_empty {engine : Engine} (M : ApiModule) :
  URLSearchParams.toString (api.queryParams (Some ContractSearchParams.empty))
  = ""
  /\ first_request (api.getContracts M (Some ContractSearchParams.empty))
     = Some {| url := API_URL M ++ "/api/contracts?"; init := None |}
  /\ request_method {| url := API_URL M ++ "/api/contracts?"; init := None |}
     = "GET"
  /\ forall w,
       requests (trace w (api.getContracts M (Some ContractSearchParams.empty)))
       = [{| url := API_URL M ++ "/api/contracts?"; init := None |}].
Proof.
  repeat split.
  intros w. unfold trace.
  change (api.getContracts M (Some ContractSearchParams.empty))
    with (guarded {| url := API_URL M ++ "/api/contracts?"; init := None |}
                  "Failed to fetch contracts").
  apply requests_guarded.
Qed.

(** C9.  The four operations that take an id splice it into the URL as it
    is.  So an id with a slash, such as [a/b], asks for a path with one
    segment more than [/api/contracts/{id}] has, and an id with [?] or [#]
    ends the path early. *)
Theorem id_is_spliced_raw (M : ApiModule) (id : string) :
  (first_request (api.getContract M id)
   = Some {| url := API_URL M ++ "/api/contracts/" ++ id; init := None |}
   /\ first_request (api.getContractVersions M id)
      = Some {| url := API_URL M ++ "/api/contracts/" ++ id ++ "/versions";
                init := None |}
   /\ first_request (api.getPublisher M id)
      = Some {| url := API_URL M ++ "/api/publishers/" ++ id; init := None |}
   /\ first_request (api.getPublisherContracts M id)
      = Some {| url := API_URL M ++ "/api/publishers/" ++ id ++ "/contracts";
                init := None |})
  /\ exists reserved,
       occurs "/" reserved = true
       /\ Url.segments (Requests.url_of (api.getContract (load []) reserved))
          <> ["api"; "contracts"; reserved]
       /\ Url.segments
            (Requests.url_of (api.getContractVersions (load []) reserved))
          <> ["api"; "contracts"; reserved; "versions"]
       /\ Url.segments (Requests.url_of (api.getPublisher (load []) reserved))
          <> ["api"; "publishers"; reserved]
       /\ Url.segments
            (Requests.url_of (api.getPublisherContracts (load []) reserved))
          <> ["api"; "publishers"; reserved; "contracts"].
Proof.
  split; [repeat split|].
  exists "a/b". split; [reflexivity|].
  repeat split; vm_compute; discriminate.
Qed.

(** What the three kinds of reserved byte do to the request of
    [getContract]. *)
Example getContract_slash :
  Url.segments (Requests.url_of (api.getContract (load []) "a/b"))
  = ["api"; "contracts"; "a"; "b"].
Proof. reflexivity. Qed.

Example getContract_question_mark :
  Url.path (Requests.url_of (api.getContract (load []) "a?b"))
  = "/api/contracts/a"
  /\ Url.query (Requests.url_of (api.getContract (load []) "a?b")) = Some "b".
Proof. split; reflexivity. Qed.

Example getContractVersions_hash :
  Url.path (Requests.url_of (api.getContractVersions (load []) "a#b"))
  = "/api/contracts/a"
  /\ Url.fragment (Requests.url_of (api.getContractVersions (load []) "a#b"))
     = Some "b/versions".
Proof. split; reflexivity. Qed.

(** ** The base URL *)

Lemma step_keeps_module {engine : Engine} (p : Process.t) (a : Process.action) (m : ApiModule) :
  Process.loaded p = Some m ->
  Process.loaded (fst (Process.step p a)) = Some m.
Proof.
  intros H. destruct a; simpl; try exact H.
  - unfold Process.import. now rewrite H.
  - unfold Process.import. now rewrite H.
Qed.

Lemma steps_keep_module {engine : Engine} (acts : list Process.action) (p : Process.t)
    (m : ApiModule) :
  Process.loaded p = Some m -> Process.loaded (Process.steps p acts) = Some m.
Proof.
  revert p. induction acts as [|a acts IH]; intros p H; [exact H|].
  simpl. apply IH. now apply step_keeps_module.
Qed.

(** C6.  The module reads the environment when it is evaluated and keeps
    the result in [API_URL]: the variable itself when it is set to a
    non-empty string, [http://localhost:3001] when it is not set.
    Whatever the process does afterwards (setting or deleting variables,
    importing again, calling operations), every operation asks for that
    [API_URL] followed by its own path. *)
Theorem base_url_read_once {engine : Engine} (e : process.env)
    (acts : list Process.action) (c : api.call) :
  Process.loaded (Process.steps (Process.booted e) acts) = Some (load e)
  /\ snd (Process.step (Process.steps (Process.booted e) acts) (Process.Call c))
     = Some {| url := API_URL (load e) ++ Table.path c;
               init := Requests.init_of c |}
  /\ (process.get e "NEXT_PUBLIC_API_URL" = None ->
      API_URL (load e) = "http://localhost:3001")
  /\ (forall s, process.get e "NEXT_PUBLIC_API_URL" = Some s -> s <> "" ->
      API_URL (load e) = s).
Proof.
  assert (L : Process.loaded (Process.steps (Process.booted e) acts)
              = Some (load e)).
  { apply steps_keep_module. reflexivity. }
  repeat split.
  - exact L.
  - simpl. unfold Process.import. rewrite L.
    apply first_request_invoke.
  - intros H. simpl. now rewrite H.
  - intros s H Hs. simpl. rewrite H.
    destruct s; [contradiction | reflexivity].
Qed.

Lemma base_url_read_once_witness :
  process.get [("HOME", "/root")] "NEXT_PUBLIC_API_URL" = None
  /\ API_URL (load [("HOME", "/root")]) = "http://localhost:3001"
  /\ snd (Process.step
            (Process.steps (Process.booted [("HOME", "/root")])
               [Process.SetEnv "NEXT_PUBLIC_API_URL" "https://registry.example"])
            (Process.Call api.GetStats))
     = Some {| url := "http://localhost:3001/api/stats"; init := None |}.
Proof.
  pose proof (base_url_read_once [("HOME", "/root")]
                [Process.SetEnv "NEXT_PUBLIC_API_URL" "https://registry.example"]
                api.GetStats) as (_ & Hcall & Hdefault & _).
  split; [reflexivity|]. split.
  - apply Hdefault. reflexivity.
  - exact Hcall.
Defined.

(** The same with the variable set before the module is evaluated, and
    changed afterwards. *)
Example base_url_of_a_set_variable :
  snd (Process.step
         (Process.steps
            (Process.booted [("NEXT_PUBLIC_API_URL", "https://registry.example")])
            [Process.SetEnv "NEXT_PUBLIC_API_URL" "https://other.example";
             Process.Import])
         (Process.Call (api.GetContract "c1")))
  = Some {| url := "https://registry.example/api/contracts/c1";
            init := None |}.
Proof. reflexivity. Qed.

Lemma get_unset (name : string) (e : process.env) :
  process.get (process.unset name e) name = None.
Proof.
  induction e as [|[k v] e IH]; [reflexivity|].
  simpl. destruct (k =? name) eqn:E; [exact IH|].
  simpl. now rewrite E.
Qed.

(** A variable set to a non-empty string is the base URL. *)
Lemma set_url_is_used (e : process.env) (c : ascii) (s : string) :
  process.get e "NEXT_PUBLIC_API_URL" = Some (String c s) ->
  API_URL (load e) = String c s.
Proof. intros H. simpl. now rewrite H. Qed.

(** C10.  A variable that is set to the empty string gives the default,
    exactly as an unset one does: the falsy values of the variable are the
    empty string and [undefined], and the default stands in for both. *)
Theorem empty_url_falls_back (e : process.env) (v : option string) :
  process.get e "NEXT_PUBLIC_API_URL" = v ->
  Js.truthy Js.string_truthy v = false ->
  (v = Some "" \/ v = None)
  /\ API_URL (load e) = "http://localhost:3001"
  /\ API_URL (load e)
     = API_URL (load (process.unset "NEXT_PUBLIC_API_URL" e)).
Proof.
  intros Hget Hfalsy.
  assert (D : API_URL (load e) = "http://localhost:3001").
  { simpl. rewrite Hget.
    destruct v as [[|c s]|]; [reflexivity | discriminate | reflexivity]. }
  split; [|split].
  - destruct v as [[|c s]|]; [now left | discriminate | now right].
  - exact D.
  - rewrite D. simpl. now rewrite get_unset.
Qed.

Lemma empty_url_falls_back_witness :
  process.get [("NEXT_PUBLIC_API_URL", "")] "NEXT_PUBLIC_API_URL" = Some ""
  /\ API_URL (load [("NEXT_PUBLIC_API_URL", "")]) = "http://localhost:3001".
Proof.
  split; [reflexivity|].
  apply (empty_url_falls_back [("NEXT_PUBLIC_API_URL", "")] (Some ""));
    reflexivity.
Defined.

(* ================================================================== *)
(** * Further properties of the operations *)

(** ** Outcomes of a call *)

(** X1.  Every operation, on a response with a status in 200-299 whose
    body parses to [payload], resolves to [payload]; the run is one
    [fetch] followed by one read of that response's body. *)
Theorem every_success_returns_payload {engine : Engine} (M : ApiModule) (c : api.call)
    (w : World) (req : Request) (r : Response) (payload : Js.value) :
  first_request (api.invoke M c) = Some req ->
  fetch w req = Resolves r ->
  (200 <= status r <= 299)%Z ->
  json r = Resolves payload ->
  run w (api.invoke M c) = ([Fetched req; ReadBody r], Fulfilled payload).
Proof.
  intros Hreq Hfetch Hstatus Hjson.
  rewrite first_request_invoke in Hreq. injection Hreq as <-.
  rewrite invoke_guarded. apply ok_range in Hstatus.
  now apply run_ok_json.
Qed.

Lemma every_success_returns_payload_witness :
  run (Sample.answering (Sample.success Sample.stats))
      (api.invoke (load []) (api.GetPublisherContracts "GABC"))
  = ([Fetched {| url := "http://localhost:3001/api/publishers/GABC/contracts";
                 init := None |};
      ReadBody (Sample.success Sample.stats)],
     Fulfilled Sample.stats).
Proof.
  apply (every_success_returns_payload (load [])
           (api.GetPublisherContracts "GABC")
           (Sample.answering (Sample.success Sample.stats))
           (Requests.request (load []) (api.GetPublisherContracts "GABC"))
           (Sample.success Sample.stats) Sample.stats);
    [reflexivity | reflexivity | simpl; lia | reflexivity].
Defined.

(** X2.  A call is fulfilled only with what the server sent: if it
    resolves to [v], then [fetch] resolved with a response whose status is
    in 200-299 and whose body parsed to [v].  There is no fallback value. *)
Theorem fulfilled_only_by_the_server {engine : Engine} (M : ApiModule) (c : api.call)
    (w : World) (v : Js.value) :
  settle w (api.invoke M c) = Fulfilled v ->
  exists req r,
    first_request (api.invoke M c) = Some req
    /\ fetch w req = Resolves r
    /\ (200 <= status r <= 299)%Z
    /\ json r = Resolves v.
Proof.
  intros H. exists (Requests.request M c).
  unfold settle in H. rewrite invoke_guarded in H. simpl in H.
  destruct (fetch w (Requests.request M c)) as [r|reason] eqn:Hfetch;
    [|discriminate].
  exists r. destruct (ok r) eqn:Hok; simpl in H; [|discriminate].
  destruct (json r) as [p|reason] eqn:Hjson; simpl in H; [|discriminate].
  injection H as ->.
  repeat split; try reflexivity; try apply first_request_invoke;
    now apply ok_range.
Qed.

Lemma fulfilled_only_by_the_server_witness :
  exists req r,
    first_request (api.invoke (load []) api.GetStats) = Some req
    /\ fetch (Sample.answering (Sample.success Sample.stats)) req = Resolves r
    /\ (200 <= status r <= 299)%Z
    /\ json r = Resolves Sample.stats.
Proof.
  apply (fulfilled_only_by_the_server (load []) api.GetStats
           (Sample.answering (Sample.success Sample.stats)) Sample.stats).
  reflexivity.
Defined.

(** X3.  Whatever the server or the network does, a call sends exactly one
    request: nothing is retried, and nothing is sent after a failure. *)
Theorem one_request_per_call {engine : Engine} (M : ApiModule) (c : api.call) (w : World) :
  exists req,
    first_request (api.invoke M c) = Some req
    /\ requests (trace w (api.invoke M c)) = [req]
    /\ (length (trace w (api.invoke M c)) <= 2)%nat.
Proof.
  exists (Requests.request M c). split; [apply first_request_invoke|].
  unfold trace. rewrite invoke_guarded. split; [apply requests_guarded|].
  simpl. destruct (fetch w (Requests.request M c)) as [r|reason]; simpl; [|lia].
  destruct (ok r); simpl; [|lia].
  destruct (json r); simpl; lia.
Qed.

(** X4.  The six reading operations call [fetch] with the URL alone: the
    method is GET, and there are no headers and no body. *)
Theorem reads_are_plain_gets {engine : Engine} (M : ApiModule) (c : api.call) :
  Method.reads c = true ->
  exists req,
    first_request (api.invoke M c) = Some req
    /\ init req = None
    /\ request_method req = "GET"
    /\ request_headers req = []
    /\ request_body req = None.
Proof.
  intros H. exists (Requests.request M c).
  split; [apply first_request_invoke|].
  destruct c; try discriminate H; repeat split.
Qed.

Lemma reads_are_plain_gets_witness :
  exists req,
    first_request (api.invoke (load []) (api.GetContractVersions "c1"))
    = Some req
    /\ init req = None
    /\ request_method req = "GET"
    /\ request_headers req = []
    /\ request_body req = None.
Proof.
  apply (reads_are_plain_gets (load []) (api.GetContractVersions "c1")).
  reflexivity.
Defined.

(** X5.  An operation that failed on the status says which operation it
    was: two calls that are rejected with the same [Error] after a
    non-success response are calls of the same method. *)
Theorem failure_names_the_method {engine : Engine} (M : ApiModule) (c1 c2 : api.call)
    (w1 w2 : World) (r1 r2 : Response) :
  fetch w1 (Requests.request M c1) = Resolves r1 ->
  fetch w2 (Requests.request M c2) = Resolves r2 ->
  ~ (200 <= status r1 <= 299)%Z ->
  ~ (200 <= status r2 <= 299)%Z ->
  settle w1 (api.invoke M c1) = settle w2 (api.invoke M c2) ->
  Method.name c1 = Method.name c2.
Proof.
  intros F1 F2 S1 S2. unfold settle. rewrite !invoke_guarded.
  rewrite (run_not_ok _ _ _ r1 F1 (not_ok_range r1 S1)).
  rewrite (run_not_ok _ _ _ r2 F2 (not_ok_range r2 S2)).
  simpl. intros E. injection E as E.
  destruct c1, c2; simpl in E; try reflexivity; discriminate E.
Qed.

Lemma failure_names_the_method_witness :
  Method.name (api.GetContract "a") = Method.name (api.GetContract "b").
Proof.
  apply (failure_names_the_method (load [])
           (api.GetContract "a") (api.GetContract "b")
           (Sample.answering Sample.not_found)
           (Sample.answering Sample.not_found)
           Sample.not_found Sample.not_found);
    [reflexivity | reflexivity | simpl; lia | simpl; lia | reflexivity].
Defined.

(** ** What [getContracts] looks at *)

(** X6.  [getContracts] never reads [tags], and treats a missing argument
    as [{}]: changing the tags of the parameters, or passing nothing
    instead of the empty object, leaves the whole body of the call as it
    is. *)
Theorem tags_are_ignored {engine : Engine} (M : ApiModule) (p : ContractSearchParams.t)
    (tags : option (list string)) :
  api.getContracts M (Some (Method.with_tags p tags))
  = api.getContracts M (Some p)
  /\ api.getContracts M None = api.getContracts M (Some ContractSearchParams.empty).
Proof. destruct p; split; reflexivity. Qed.

(** ** The base URL, when it is configured *)

(** X7.  A non-empty [NEXT_PUBLIC_API_URL] is used exactly as written, with
    no normalisation: every operation asks for that string followed by its
    path. *)
Theorem configured_base_is_verbatim {engine : Engine} (e : process.env) (s : string)
    (c : api.call) :
  process.get e "NEXT_PUBLIC_API_URL" = Some s ->
  s <> "" ->
  first_request (api.invoke (load e) c)
  = Some {| url := s ++ Table.path c; init := Requests.init_of c |}.
Proof.
  intros Hget Hs. rewrite first_request_invoke.
  unfold Requests.request. simpl. rewrite Hget.
  destruct s; [contradiction|reflexivity].
Qed.

(** With a trailing slash in the variable, the URL has two slashes. *)
Lemma configured_base_is_verbatim_witness :
  first_request
    (api.invoke (load [("NEXT_PUBLIC_API_URL", "https://registry.example/")])
                api.GetStats)
  = Some {| url := "https://registry.example//api/stats"; init := None |}.
Proof.
  apply (configured_base_is_verbatim
           [("NEXT_PUBLIC_API_URL", "https://registry.example/")]
           "https://registry.example/" api.GetStats);
    [reflexivity | discriminate].
Defined.

(** ** Where the URL ends up *)

Lemma append_nil_r (s : string) : s ++ "" = s.
Proof. induction s as [|c s IH]; simpl; [reflexivity | now rewrite IH]. Qed.

Lemma append_assoc (a b c : string) : (a ++ b) ++ c = a ++ (b ++ c).
Proof. induction a as [|x a IH]; simpl; [reflexivity | now rewrite IH]. Qed.

Lemma free_of_app (stop : ascii -> bool) (a b : string) :
  free_of stop (a ++ b) = free_of stop a && free_of stop b.
Proof.
  induction a as [|c a IH]; simpl; [reflexivity|].
  now rewrite IH, andb_assoc.
Qed.

Lemma free_of_flat_map (stop : ascii -> bool) (f : ascii -> string)
    (s : string) :
  (forall c, free_of stop (f c) = true) ->
  free_of stop (flat_map_string f s) = true.
Proof.
  intros Hf. induction s as [|c s IH]; simpl; [reflexivity|].
  now rewrite free_of_app, Hf, IH.
Qed.

Lemma free_of_weaken (stop stop' : ascii -> bool) (s : string) :
  (forall c, stop' c = true -> stop c = true) ->
  free_of stop s = true -> free_of stop' s = true.
Proof.
  intros Hsub. induction s as [|c s IH]; simpl; [reflexivity|].
  intros H. apply andb_true_iff in H as [Hc Hs].
  rewrite (IH Hs), andb_true_r.
  destruct (stop' c) eqn:E; [|reflexivity].
  now rewrite (Hsub c E) in Hc.
Qed.

Lemma free_of_occurs (x : ascii) (s : string) :
  free_of (is_char x) s = true -> occurs x s = false.
Proof.
  unfold is_char. induction s as [|c s IH]; simpl; [reflexivity|].
  intros H. apply andb_true_iff in H as [Hc Hs].
  rewrite (IH Hs). now destruct (Ascii.eqb c x).
Qed.

Lemma take_until_free (stop : ascii -> bool) (a b : string) :
  free_of stop a = true ->
  take_until stop (a ++ b) = a ++ take_until stop b.
Proof.
  induction a as [|c a IH]; simpl; [reflexivity|].
  intros H. apply andb_true_iff in H as [Hc Ha].
  destruct (stop c); [discriminate|]. now rewrite (IH Ha).
Qed.

Lemma drop_until_free (stop : ascii -> bool) (a b : string) :
  free_of stop a = true -> drop_until stop (a ++ b) = drop_until stop b.
Proof.
  induction a as [|c a IH]; simpl; [reflexivity|].
  intros H. apply andb_true_iff in H as [Hc Ha].
  destruct (stop c); [discriminate|]. exact (IH Ha).
Qed.

Lemma take_until_all (stop : ascii -> bool) (s : string) :
  free_of stop s = true -> take_until stop s = s.
Proof.
  intros H. rewrite <- (append_nil_r s) at 1.
  rewrite take_until_free by exact H. apply append_nil_r.
Qed.

Lemma drop_until_all (stop : ascii -> bool) (s : string) :
  free_of stop s = true -> drop_until stop s = "".
Proof.
  intros H. rewrite <- (append_nil_r s).
  now rewrite drop_until_free by exact H.
Qed.

Lemma authority_no_hash (c : ascii) :
  is_char "#" c = true -> Url.ends_authority c = true.
Proof. unfold Url.ends_authority. intros ->. now rewrite !orb_true_r. Qed.

Lemma authority_no_slash (c : ascii) :
  is_char "/" c = true -> Url.ends_authority c = true.
Proof. unfold Url.ends_authority. now intros ->. Qed.

Lemma authority_ends_path (c : ascii) :
  Url.ends_path c = true -> Url.ends_authority c = true.
Proof.
  unfold Url.ends_path, Url.ends_authority.
  destruct (is_char "/" c), (is_char "?" c), (is_char "#" c);
    simpl; congruence.
Qed.

Lemma after_scheme_found (scheme rest : string) :
  occurs ":" scheme = false ->
  Url.after_scheme (scheme ++ "://" ++ rest) = rest.
Proof.
  induction scheme as [|c scheme IH]; [reflexivity|].
  simpl occurs. intros H. apply orb_false_elim in H as [Hc Hs].
  specialize (IH Hs).
  each_byte c; try discriminate Hc; exact IH.
Qed.

Section Origin.

(** A base URL [scheme://host], without a path. *)
Variables scheme host : string.
Hypothesis scheme_ok : occurs ":" scheme = false.
Hypothesis host_ok : free_of Url.ends_authority host = true.

(** What the parts of [scheme://host/rest] are, [rest] being given. *)
Lemma path_under_origin (rest : string) :
  Url.path ((scheme ++ "://" ++ host) ++ String "/" rest)
  = take_until Url.ends_path (String "/" rest).
Proof.
  unfold Url.path. rewrite !append_assoc.
  rewrite after_scheme_found by exact scheme_ok.
  now rewrite drop_until_free by exact host_ok.
Qed.

Lemma query_under_origin (rest : string) :
  Url.query ((scheme ++ "://" ++ host) ++ String "/" rest)
  = match drop_until Url.ends_path (String "/" rest) with
    | String "?" q => Some (take_until (is_char "#") q)
    | _ => None
    end.
Proof.
  unfold Url.query. rewrite !append_assoc.
  rewrite after_scheme_found by exact scheme_ok.
  now rewrite drop_until_free by exact host_ok.
Qed.

Lemma fragment_under_origin (rest : string) :
  Url.fragment ((scheme ++ "://" ++ host) ++ rest)
  = match drop_until (is_char "#") rest with
    | String _ f => Some f
    | EmptyString => None
    end.
Proof.
  unfold Url.fragment. rewrite !append_assoc.
  rewrite after_scheme_found by exact scheme_ok.
  now rewrite drop_until_free
    by exact (free_of_weaken _ _ _ authority_no_hash host_ok).
Qed.

End Origin.

Lemma encode_byte_free (c : ascii) :
  free_of Url.ends_authority (URLSearchParams.encode_byte c) = true.
Proof. each_byte c; reflexivity. Qed.

Lemma encode_free (s : string) :
  free_of Url.ends_authority (URLSearchParams.encode s) = true.
Proof. apply free_of_flat_map, encode_byte_free. Qed.

Lemma encode_tuple_free (nv : string * string) :
  free_of Url.ends_authority (URLSearchParams.encode_tuple nv) = true.
Proof.
  unfold URLSearchParams.encode_tuple.
  now rewrite !free_of_app, !encode_free.
Qed.

Lemma toString_free (qp : URLSearchParams.t) :
  free_of Url.ends_authority (URLSearchParams.toString qp) = true.
Proof.
  unfold URLSearchParams.toString.
  induction qp as [|x qp IH]; [reflexivity|].
  destruct qp as [|y qp]; [apply encode_tuple_free|].
  change (String.concat "&" (map URLSearchParams.encode_tuple (x :: y :: qp)))
    with (URLSearchParams.encode_tuple x
          ++ "&" ++ String.concat "&"
               (map URLSearchParams.encode_tuple (y :: qp))).
  rewrite !free_of_app, encode_tuple_free, IH. reflexivity.
Qed.

Lemma token_is_free (s : string) :
  made_of token_byte s = true -> free_of Url.ends_authority s = true.
Proof.
  apply free_of_weaken. intros c.
  each_byte c; vm_compute; intros H; first [reflexivity | discriminate H].
Qed.

Lemma encode_byte_made (c : ascii) :
  made_of query_byte (URLSearchParams.encode_byte c) = true.
Proof. each_byte c; reflexivity. Qed.

Lemma toString_made (qp : URLSearchParams.t) :
  made_of query_byte (URLSearchParams.toString qp) = true.
Proof.
  assert (T : forall nv,
             made_of query_byte (URLSearchParams.encode_tuple nv) = true).
  { intros nv. unfold made_of, URLSearchParams.encode_tuple, URLSearchParams.encode.
    rewrite !free_of_app.
    now rewrite !(free_of_flat_map _ _ _ encode_byte_made). }
  unfold URLSearchParams.toString.
  induction qp as [|x qp IH]; [reflexivity|].
  destruct qp as [|y qp]; [apply T|].
  change (String.concat "&" (map URLSearchParams.encode_tuple (x :: y :: qp)))
    with (URLSearchParams.encode_tuple x
          ++ "&" ++ String.concat "&"
               (map URLSearchParams.encode_tuple (y :: qp))).
  unfold made_of in *. rewrite !free_of_app, T, IH. reflexivity.
Qed.

(** X8.  With the default base URL, whatever the search parameters hold
    ([&], [=], [#], [?], [/], spaces, any number), the query string of
    [getContracts] is made of ASCII letters, digits and [* - . _ % + & =]
    only; the URL has the path [/api/contracts], that query string and no
    fragment; and the server reads back from it exactly the tuples the
    guards let through, with the texts as they were given. *)
Theorem search_text_stays_in_the_query {engine : Engine} (M : ApiModule)
    (params : option ContractSearchParams.t) :
  API_URL M = "http://localhost:3001" ->
  made_of query_byte (URLSearchParams.toString (api.queryParams params)) = true
  /\ Url.path (Requests.url_of (api.getContracts M params)) = "/api/contracts"
  /\ Url.query (Requests.url_of (api.getContracts M params))
     = Some (URLSearchParams.toString (api.queryParams params))
  /\ Url.fragment (Requests.url_of (api.getContracts M params)) = None
  /\ QueryString.parse (URLSearchParams.toString (api.queryParams params))
     = Table.sent_tuples params Table.query_fields.
Proof.
  destruct M as [base]. simpl. intros ->.
  pose proof (toString_free (api.queryParams params)) as Hfree.
  change (Requests.url_of
            (api.getContracts {| API_URL := "http://localhost:3001" |} params))
    with (("http" ++ "://" ++ "localhost:3001")
          ++ String "/" ("api/contracts?"
                         ++ URLSearchParams.toString (api.queryParams params))).
  split; [apply toString_made|].
  split; [|split; [|split]].
  - now rewrite path_under_origin.
  - rewrite query_under_origin by reflexivity. simpl.
    now rewrite take_until_all
      by exact (free_of_weaken _ _ _ authority_no_hash Hfree).
  - rewrite fragment_under_origin by reflexivity.
    change (String "/" ("api/contracts?"
                        ++ URLSearchParams.toString (api.queryParams params)))
      with ("/api/contracts?"
            ++ URLSearchParams.toString (api.queryParams params)).
    rewrite drop_until_free by reflexivity.
    now rewrite drop_until_all
      by exact (free_of_weaken _ _ _ authority_no_hash Hfree).
  - now rewrite parse_toString, queryParams_sent.
Qed.

Lemma search_text_stays_in_the_query_witness :
  Url.query
    (Requests.url_of
       (api.getContracts (load [])
          (Some (ContractSearchParams.mk (Some "a&b=c #d?/") None None None
                   None (Some 1.5%float) None))))
  = Some "query=a%26b%3Dc+%23d%3F%2F&page=1.5".
Proof.
  exact (proj1 (proj2 (proj2
           (search_text_stays_in_the_query (load [])
              (Some (ContractSearchParams.mk (Some "a&b=c #d?/") None None
                       None None (Some 1.5%float) None))
              eq_refl)))).
Defined.

Lemma segments_of_path (a b : string) :
  occurs "/" a = false ->
  split_on "/" (a ++ String "/" b) = a :: split_on "/" b.
Proof. apply split_on_first. Qed.

(** X9.  With the default base URL, an id made of ASCII letters, digits,
    [-] and [_] is one segment of the path: the four operations that take
    an id ask for [/api/contracts/{id}], [/api/contracts/{id}/versions],
    [/api/publishers/{id}] and [/api/publishers/{id}/contracts], with no
    query and no fragment. *)
Theorem plain_id_is_one_segment (M : ApiModule) (id : string) :
  API_URL M = "http://localhost:3001" ->
  made_of token_byte id = true ->
  (Url.segments (Requests.url_of (api.getContract M id))
   = ["api"; "contracts"; id]
   /\ Url.segments (Requests.url_of (api.getContractVersions M id))
      = ["api"; "contracts"; id; "versions"]
   /\ Url.segments (Requests.url_of (api.getPublisher M id))
      = ["api"; "publishers"; id]
   /\ Url.segments (Requests.url_of (api.getPublisherContracts M id))
      = ["api"; "publishers"; id; "contracts"])
  /\ Url.query (Requests.url_of (api.getContract M id)) = None
  /\ Url.fragment (Requests.url_of (api.getContract M id)) = None.
Proof.
  destruct M as [base]. simpl API_URL. intros -> Htoken.
  pose proof (token_is_free id Htoken) as Hid.
  pose proof (free_of_weaken _ _ _ authority_ends_path Hid) as Hpath.
  pose proof (free_of_weaken _ _ _ authority_no_hash Hid) as Hhash.
  pose proof (free_of_occurs _ _ (free_of_weaken _ _ _ authority_no_slash Hid))
    as Hslash.
  unfold Url.segments.
  split; [repeat split|split].
  - change (Requests.url_of
              (api.getContract {| API_URL := "http://localhost:3001" |} id))
      with (("http" ++ "://" ++ "localhost:3001")
            ++ String "/" ("api/contracts/" ++ id)).
    rewrite path_under_origin by reflexivity.
    change (String "/" ("api/contracts/" ++ id)) with ("/api/contracts/" ++ id).
    rewrite take_until_free by reflexivity.
    rewrite take_until_all by exact Hpath.
    change ("/api/contracts/" ++ id)
      with ("" ++ String "/" ("api" ++ String "/" ("contracts" ++ String "/" id))).
    rewrite !segments_of_path by reflexivity.
    now rewrite split_on_absent by exact Hslash.
  - change (Requests.url_of
              (api.getContractVersions
                 {| API_URL := "http://localhost:3001" |} id))
      with (("http" ++ "://" ++ "localhost:3001")
            ++ String "/" ("api/contracts/" ++ id ++ "/versions")).
    rewrite path_under_origin by reflexivity.
    change (String "/" ("api/contracts/" ++ id ++ "/versions"))
      with ("/api/contracts/" ++ id ++ "/versions").
    rewrite take_until_free by reflexivity.
    rewrite take_until_free by exact Hpath.
    change ("/api/contracts/" ++ id ++ take_until Url.ends_path "/versions")
      with ("" ++ String "/" ("api" ++ String "/"
              ("contracts" ++ String "/" (id ++ String "/" "versions")))).
    rewrite !segments_of_path by reflexivity.
    now rewrite segments_of_path by exact Hslash.
  - change (Requests.url_of
              (api.getPublisher {| API_URL := "http://localhost:3001" |} id))
      with (("http" ++ "://" ++ "localhost:3001")
            ++ String "/" ("api/publishers/" ++ id)).
    rewrite path_under_origin by reflexivity.
    change (String "/" ("api/publishers/" ++ id)) with ("/api/publishers/" ++ id).
    rewrite take_until_free by reflexivity.
    rewrite take_until_all by exact Hpath.
    change ("/api/publishers/" ++ id)
      with ("" ++ String "/" ("api" ++ String "/" ("publishers" ++ String "/" id))).
    rewrite !segments_of_path by reflexivity.
    now rewrite split_on_absent by exact Hslash.
  - change (Requests.url_of
              (api.getPublisherContracts
                 {| API_URL := "http://localhost:3001" |} id))
      with (("http" ++ "://" ++ "localhost:3001")
            ++ String "/" ("api/publishers/" ++ id ++ "/contracts")).
    rewrite path_under_origin by reflexivity.
    change (String "/" ("api/publishers/" ++ id ++ "/contracts"))
      with ("/api/publishers/" ++ id ++ "/contracts").
    rewrite take_until_free by reflexivity.
    rewrite take_until_free by exact Hpath.
    change ("/api/publishers/" ++ id ++ take_until Url.ends_path "/contracts")
      with ("" ++ String "/" ("api" ++ String "/"
              ("publishers" ++ String "/" (id ++ String "/" "contracts")))).
    rewrite !segments_of_path by reflexivity.
    now rewrite segments_of_path by exact Hslash.
  - change (Requests.url_of
              (api.getContract {| API_URL := "http://localhost:3001" |} id))
      with (("http" ++ "://" ++ "localhost:3001")
            ++ String "/" ("api/contracts/" ++ id)).
    rewrite query_under_origin by reflexivity.
    change (String "/" ("api/contracts/" ++ id)) with ("/api/contracts/" ++ id).
    rewrite drop_until_free by reflexivity.
    now rewrite drop_until_all by exact Hpath.
  - change (Requests.url_of
              (api.getContract {| API_URL := "http://localhost:3001" |} id))
      with (("http" ++ "://" ++ "localhost:3001") ++ ("/api/contracts/" ++ id)).
    rewrite fragment_under_origin by reflexivity.
    rewrite drop_until_free by reflexivity.
    now rewrite drop_until_all by exact Hhash.
Qed.

Lemma plain_id_is_one_segment_witness :
  Url.segments
    (Requests.url_of
       (api.getPublisherContracts (load [])
          "3f2b8c1e-7a4d-4e2a-9c1b-5d6e7f8a9b0c"))
  = ["api"; "publishers"; "3f2b8c1e-7a4d-4e2a-9c1b-5d6e7f8a9b0c"; "contracts"].
Proof.
  apply (plain_id_is_one_segment (load [])
           "3f2b8c1e-7a4d-4e2a-9c1b-5d6e7f8a9b0c");
    reflexivity.
Defined.

(** ** An id with a question mark *)

(** X12.  With the default base URL, an id of the form [a?b], [a] and [b]
    being made of ASCII letters, digits, [-] and [_], cuts the path short:
    [getContractVersions] then asks for the very path [getContract] asks
    for with the id [a], the rest of the id and the [/versions] suffix
    being sent as the query string. *)
Theorem question_mark_cuts_the_path (M : ApiModule) (a b : string) :
  API_URL M = "http://localhost:3001" ->
  made_of token_byte a = true ->
  made_of token_byte b = true ->
  Url.path (Requests.url_of (api.getContractVersions M (a ++ "?" ++ b)))
  = "/api/contracts/" ++ a
  /\ Url.path (Requests.url_of (api.getContract M a)) = "/api/contracts/" ++ a
  /\ Url.query (Requests.url_of (api.getContractVersions M (a ++ "?" ++ b)))
     = Some (b ++ "/versions").
Proof.
  destruct M as [base]. simpl API_URL. intros -> Htoken_a Htoken_b.
  pose proof (token_is_free a Htoken_a) as Ha.
  pose proof (free_of_weaken _ _ _ authority_no_hash
                (token_is_free b Htoken_b)) as Hb.
  pose proof (free_of_weaken _ _ _ authority_ends_path Ha) as Hpath.
  assert (U : Requests.url_of
                (api.getContractVersions
                   {| API_URL := "http://localhost:3001" |} (a ++ "?" ++ b))
              = ("http" ++ "://" ++ "localhost:3001")
                ++ String "/" ("api/contracts/"
                               ++ a ++ String "?" (b ++ "/versions"))).
  { change (Requests.url_of
              (api.getContractVersions
                 {| API_URL := "http://localhost:3001" |} (a ++ "?" ++ b)))
      with (("http" ++ "://" ++ "localhost:3001")
            ++ String "/" ("api/contracts/" ++ (a ++ "?" ++ b) ++ "/versions")).
    now rewrite (append_assoc a). }
  rewrite U. split; [|split].
  - rewrite path_under_origin by reflexivity.
    change (String "/" ("api/contracts/" ++ a ++ String "?" (b ++ "/versions")))
      with ("/api/contracts/" ++ a ++ String "?" (b ++ "/versions")).
    rewrite take_until_free by reflexivity.
    rewrite take_until_free by exact Hpath.
    simpl take_until. now rewrite append_nil_r.
  - change (Requests.url_of
              (api.getContract {| API_URL := "http://localhost:3001" |} a))
      with (("http" ++ "://" ++ "localhost:3001")
            ++ String "/" ("api/contracts/" ++ a)).
    rewrite path_under_origin by reflexivity.
    change (String "/" ("api/contracts/" ++ a)) with ("/api/contracts/" ++ a).
    rewrite take_until_free by reflexivity.
    now rewrite take_until_all by exact Hpath.
  - rewrite query_under_origin by reflexivity.
    change (String "/" ("api/contracts/" ++ a ++ String "?" (b ++ "/versions")))
      with ("/api/contracts/" ++ a ++ String "?" (b ++ "/versions")).
    rewrite drop_until_free by reflexivity.
    rewrite drop_until_free by exact Hpath.
    simpl.
    rewrite take_until_free by exact Hb. reflexivity.
Qed.

Lemma question_mark_cuts_the_path_witness :
  Url.path
    (Requests.url_of
       (api.getContractVersions (load []) ("c1" ++ "?" ++ "x")))
  = "/api/contracts/" ++ "c1".
Proof.
  apply (question_mark_cuts_the_path (load []) "c1" "x"); reflexivity.
Defined.
